(** * can-i-swim firmware: the flush / rotation / double-buffer pipeline

    A shallow embedding of [firmware/main/firmware.c].  The file holds two
    variants of the firmware: the portrait one (LVGL renders in the panel's
    native orientation, [flush_cb] forwards the block as it is) and the
    landscape one (LVGL renders 456x280, [flush_cb] rotates the block by 90
    degrees, band by band, through a scratch buffer).  The rounder callback is
    the same in both.

    Modelling conventions:
    - a C integer is a [Z]; a conversion to a fixed-width type is written out
      ([to_uint8], [to_uint16], [to_uint32], [to_int32]).  Signed arithmetic
      wraps, as the target's compiler implements it; theorems that speak of
      the mathematical value state the range of their inputs;
    - a pixel is a 16-bit sample, a heap object is the list of its samples,
      the heap maps the base address of each live object to its contents and
      the null pointer is address [0];
    - stateful code runs in a state-and-fault monad over [state]; the calls
      that leave the firmware (logging, the allocator, the normalizer, the
      panel driver, the rendering runtime) are recorded in [trace], the reads
      of the band copy through [px_map] in [loads];
    - a loop is a function with fuel; the theorems on runs that return give
      the fuel that is enough. *)

From Stdlib Require Import ZArith Lia List.
From stdpp Require Import base tactics option list gmap.

Local Open Scope Z_scope.

(** ** Fixed-width integers *)

Definition to_uint8 (z : Z) : Z := z mod 2 ^ 8.
Definition to_uint16 (z : Z) : Z := z mod 2 ^ 16.
Definition to_uint32 (z : Z) : Z := z mod 2 ^ 32.
Definition to_int32 (z : Z) : Z := (z + 2 ^ 31) mod 2 ^ 32 - 2 ^ 31.

Definition is_uint16 (z : Z) : Prop := 0 ≤ z < 2 ^ 16.
Definition is_int32 (z : Z) : Prop := - 2 ^ 31 ≤ z < 2 ^ 31.

(** ** Panel geometry (the [#define]s of the landscape variant) *)

Definition LCD_H_RES : Z := 280.
Definition LCD_V_RES : Z := 456.
Definition LVGL_WIDTH : Z := 456.
Definition LVGL_HEIGHT : Z := 280.
Definition DRAW_BUF_LINES : Z := 70.

(** ** Rectangles *)

(** Modelled from the spec: [lv_area_t] is declared in LVGL's headers, which
    are not part of the repository.  The spec's Rectangle has integer bounds
    (x1,y1,x2,y2), inclusive; the LVGL generation the firmware is written
    against ([lv_display_t]) declares the four fields as [int32_t]. *)
Record lv_area_t : Type := mk_area { x1 : Z; y1 : Z; x2 : Z; y2 : Z }.

Definition area_int32 (a : lv_area_t) : Prop :=
  is_int32 (x1 a) ∧ is_int32 (y1 a) ∧ is_int32 (x2 a) ∧ is_int32 (y2 a).

(** ** Region quantizer *)

(** [~0x7U]: the complement of 7 as an [unsigned int]. *)
Definition not_0x7U : Z := to_uint32 (Z.lnot 7).

(** [lvgl_display_rounder_callback].  In [area->x1 &= ~0x7U] the field is
    converted to [unsigned], masked, and converted back on assignment; in
    [(area->x2 & ~0x7U) + 7] the addition is unsigned as well. *)
Definition lvgl_display_rounder_callback (area : lv_area_t) : lv_area_t :=
  {| x1 := to_int32 (Z.land (to_uint32 (x1 area)) not_0x7U);
     y1 := to_int32 (Z.land (to_uint32 (y1 area)) not_0x7U);
     x2 := to_int32 (to_uint32 (Z.land (to_uint32 (x2 area)) not_0x7U + 7));
     y2 := to_int32 (to_uint32 (Z.land (to_uint32 (y2 area)) not_0x7U + 7)) |}.

(** Inclusion of inclusive rectangles. *)
Definition area_within (a b : lv_area_t) : Prop :=
  x1 b ≤ x1 a ∧ y1 b ≤ y1 a ∧ x2 a ≤ x2 b ∧ y2 a ≤ y2 b.

(** ** Pixel-format normalizer *)

(** Exchange the two bytes of a 16-bit sample: [(v << 8) | (v >> 8)] in
    16 bits. *)
Definition swap16 (v : Z) : Z :=
  to_uint16 (Z.lor (Z.shiftl v 8) (Z.shiftr v 8)).

Definition lo_byte (v : Z) : Z := Z.land v 255.
Definition hi_byte (v : Z) : Z := Z.land (Z.shiftr v 8) 255.

(** Modelled from the spec: [lv_draw_sw_rgb565_swap] is LVGL's, its body is
    not part of the repository.  Given a contiguous pixel block and its pixel
    count it permutes the byte order of each 16-bit sample in place; the
    samples after the first [n] are not part of the block. *)
Definition rgb565_swap (buf : list Z) (n : nat) : list Z :=
  (swap16 <$> take n buf) ++ drop n buf.

(** ** Machine state *)

Inductive log_msg : Type :=
  | LogFlushing (area : lv_area_t)
  | LogBufferSize (bytes : Z)
  | LogAllocFailed (buf1 buf2 : Z).

(** Calls that leave the firmware. [EvDrawBitmap] carries the window, the
    pointer handed to the panel driver and the samples it points to at the
    time of the call. *)
Inductive event : Type :=
  | EvLogI (m : log_msg)
  | EvLogE (m : log_msg)
  | EvAlloc (alignment size p : Z)
  | EvFree (p : Z)
  | EvSwap (p count : Z)
  | EvDrawBitmap (x_start y_start x_end y_end p : Z) (data : list Z)
  | EvFlushReady
  | EvSetBuffers (buf1 buf2 size : Z)
  | EvAbort.

(** [alloc_addr k] is the address the allocator answers to the [k]-th
    request ([0] when it fails) and [alloc_fill k i] the indeterminate value
    of sample [i] of that object. *)
Record state : Type := mk_state {
  heap : gmap Z (list Z);
  nalloc : nat;
  alloc_addr : nat → Z;
  alloc_fill : nat → nat → Z;
  trace : list event;
  loads : list (Z * Z)
}.

Definition set_heap (h : gmap Z (list Z)) (s : state) : state :=
  mk_state h (nalloc s) (alloc_addr s) (alloc_fill s) (trace s) (loads s).
Definition emit (e : event) (s : state) : state :=
  mk_state (heap s) (nalloc s) (alloc_addr s) (alloc_fill s)
    (trace s ++ [e]) (loads s).
Definition log_load (p i : Z) (s : state) : state :=
  mk_state (heap s) (nalloc s) (alloc_addr s) (alloc_fill s)
    (trace s) (loads s ++ [(p, i)]).
Definition count_alloc (s : state) : state :=
  mk_state (heap s) (S (nalloc s)) (alloc_addr s) (alloc_fill s)
    (trace s) (loads s).

(** What stops a run: an access through a pointer to no live object (the
    null pointer among them), an access outside an object, [abort()], an
    allocator that hands out a live object, a loop that has not finished
    within the fuel. *)
Inductive fault : Type :=
  | BadPointer (p : Z)
  | OutOfBounds (p i : Z)
  | Aborted
  | AllocatorContract
  | OutOfFuel.

Inductive result (A : Type) : Type :=
  | Ok (a : A) (s : state)
  | Err (f : fault) (s : state).
Arguments Ok {A} a s.
Arguments Err {A} f s.

Definition M (A : Type) : Type := state → result A.

#[global] Instance M_ret : MRet M := λ A a s, Ok a s.
#[global] Instance M_bind : MBind M := λ A B f m s,
  match m s with
  | Ok a s' => f a s'
  | Err e s' => Err e s'
  end.

Definition final {A} (r : result A) : state :=
  match r with Ok _ s => s | Err _ s => s end.

Definition sample_at (l : list Z) (i : Z) : option Z :=
  if i <? 0 then None else l !! Z.to_nat i.

(** ** Primitive operations *)

(** [p[i]] as an rvalue. *)
Definition load (p i : Z) : M Z := λ s,
  let s' := log_load p i s in
  match heap s !! p with
  | None => Err (BadPointer p) s'
  | Some l =>
      match sample_at l i with
      | Some v => Ok v s'
      | None => Err (OutOfBounds p i) s'
      end
  end.

(** [p[i] = v]. *)
Definition store (p i v : Z) : M unit := λ s,
  match heap s !! p with
  | None => Err (BadPointer p) s
  | Some l =>
      match sample_at l i with
      | Some _ => Ok () (set_heap (<[p := <[Z.to_nat i := v]> l]> (heap s)) s)
      | None => Err (OutOfBounds p i) s
      end
  end.

Definition esp_logi (m : log_msg) : M unit := λ s, Ok () (emit (EvLogI m) s).
Definition esp_loge (m : log_msg) : M unit := λ s, Ok () (emit (EvLogE m) s).
Definition abort {A} : M A := λ s, Err Aborted (emit EvAbort s).

(** The allocator of the platform.  It answers with a null pointer or with a
    new object of [size] bytes, that is [size / 2] samples of indeterminate
    value.  It never answers with an object that is live: a run in which it
    would is outside the model and stops with [AllocatorContract]. *)
Definition heap_caps_aligned_alloc (alignment size : Z) : M Z := λ s,
  let k := nalloc s in
  let p := alloc_addr s k in
  let s' := emit (EvAlloc alignment size p) (count_alloc s) in
  if p =? 0 then Ok 0 s'
  else match heap s !! p with
       | Some _ => Err AllocatorContract s'
       | None =>
           Ok p (set_heap (<[p := alloc_fill s k <$> seq 0 (Z.to_nat (size / 2))]>
                             (heap s)) s')
       end.

(** [free(p)]; [free(NULL)] does nothing. *)
Definition free (p : Z) : M unit := λ s,
  let s' := emit (EvFree p) s in
  if p =? 0 then Ok () s'
  else match heap s !! p with
       | Some _ => Ok () (set_heap (delete p (heap s)) s')
       | None => Err (BadPointer p) s'
       end.

(** Modelled from the spec: the normalizer applied in place to the first
    [buf_size_px] samples of the object at [buf]; its side effects are
    limited to that buffer and it allocates nothing. *)
Definition lv_draw_sw_rgb565_swap (buf buf_size_px : Z) : M unit := λ s,
  let s' := emit (EvSwap buf buf_size_px) s in
  if buf_size_px =? 0 then Ok () s'
  else match heap s !! buf with
       | None => Err (BadPointer buf) s'
       | Some l =>
           if buf_size_px <=? Z.of_nat (length l)
           then Ok () (set_heap (<[buf := rgb565_swap l (Z.to_nat buf_size_px)]>
                                   (heap s)) s')
           else Err (OutOfBounds buf (Z.of_nat (length l))) s'
       end.

(** Modelled from the spec: the write operation of the external panel
    driver, [write(x_start, y_start, x_end_exclusive, y_end_exclusive,
    pixel_block)], takes exactly [(x_end - x_start) * (y_end - y_start)]
    samples from the block. *)
Definition esp_lcd_panel_draw_bitmap
    (x_start y_start x_end y_end color_data : Z) : M unit := λ s,
  let count := (x_end - x_start) * (y_end - y_start) in
  match heap s !! color_data with
  | None => Err (BadPointer color_data) s
  | Some l =>
      if count <=? Z.of_nat (length l)
      then Ok () (emit (EvDrawBitmap x_start y_start x_end y_end color_data
                          (take (Z.to_nat count) l)) s)
      else Err (OutOfBounds color_data (Z.of_nat (length l))) s
  end.

Definition lv_disp_flush_ready : M unit := λ s, Ok () (emit EvFlushReady s).

Definition lv_display_set_buffers (buf1 buf2 buf_size : Z) : M unit := λ s,
  Ok () (emit (EvSetBuffers buf1 buf2 buf_size) s).

(** [for (T i = i0; i < bound; i += step) body], where [conv] is the
    conversion to the counter's type [T]. *)
Fixpoint for_loop (fuel : nat) (conv : Z → Z) (i bound step : Z)
    (body : Z → M unit) : M unit :=
  match fuel with
  | O => λ s, Err OutOfFuel s
  | S fuel' =>
      if i <? bound
      then body i ;; for_loop fuel' conv (conv (i + step)) bound step body
      else mret ()
  end.

(** ** The flush callback, landscape variant *)

Definition rows : Z := 8.
Definition cols : Z := LVGL_WIDTH.
Definition sizeof_lv_color16_t : Z := 2.

(** The band copy: the two inner loops of [flush_cb]. *)
Definition copy_band (fuel : nat) (color_map line_buf n : Z) : M unit :=
  for_loop fuel to_uint16 0 LVGL_WIDTH 1 (λ x,
    for_loop fuel to_uint8 0 rows 1 (λ y,
      v ← load color_map (to_int32 ((n + y) * cols + x));
      store line_buf (to_int32 (x * rows + (rows - y - 1))) v)).

Definition flush_band (fuel : nat) (area : lv_area_t)
    (color_map line_buf n : Z) : M unit :=
  copy_band fuel color_map line_buf n ;;
  let y_offset := to_int32 (LCD_H_RES - y1 area - n) in
  esp_lcd_panel_draw_bitmap (to_int32 (y_offset - rows)) 0 y_offset LCD_V_RES
    line_buf.

Definition flush_cb (fuel : nat) (area : lv_area_t) (px_map : Z) : M unit :=
  esp_logi (LogFlushing area) ;;
  let color_map := px_map in
  lv_draw_sw_rgb565_swap color_map
    (to_uint32 ((x2 area - x1 area + 1) * (y2 area - y1 area + 1))) ;;
  line_buf ← heap_caps_aligned_alloc 64
                (LVGL_WIDTH * rows * sizeof_lv_color16_t);
  for_loop fuel to_uint16 0 (to_int32 (y2 area - y1 area)) rows
    (flush_band fuel area color_map line_buf) ;;
  free line_buf ;;
  lv_disp_flush_ready.

(** ** Start-up and main loop, landscape variant *)

(** The part of [app_main] that sets up the two pixel buffers.  The bus and
    panel bring-up before it and the widget set-up after it belong to the
    external collaborators. *)
Definition app_main_buffers : M (Z * Z) :=
  let buf_size := LVGL_WIDTH * DRAW_BUF_LINES * 2 in
  esp_logi (LogBufferSize buf_size) ;;
  buf1 ← heap_caps_aligned_alloc 64 buf_size;
  buf2 ← heap_caps_aligned_alloc 64 buf_size;
  if (buf1 =? 0) || (buf2 =? 0)
  then esp_loge (LogAllocFailed buf1 buf2) ;; abort
  else lv_display_set_buffers buf1 buf2 buf_size ;; mret (buf1, buf2).

(** One render/flush cycle of the rendering runtime: it renders [c_pixels]
    into the pixel buffer it holds (the first one when [c_first]), then hands
    that buffer and the dirty rectangle to the flush callback. *)
Record cycle : Type := mk_cycle {
  c_area : lv_area_t;
  c_first : bool;
  c_pixels : list Z
}.

(** Modelled from the spec: the rendering runtime is an external
    collaborator.  It is given exclusive write access to one of the two
    registered pixel buffers and writes the rendered region at its start. *)
Definition lv_render (buf : Z) (pixels : list Z) : M unit := λ s,
  match heap s !! buf with
  | None => Err (BadPointer buf) s
  | Some l =>
      if (length pixels <=? length l)%nat
      then Ok () (set_heap (<[buf := pixels ++ drop (length pixels) l]> (heap s)) s)
      else Err (OutOfBounds buf (Z.of_nat (length l))) s
  end.

Definition held_buffer (bufs : Z * Z) (c : cycle) : Z :=
  if c_first c then bufs.1 else bufs.2.

Definition render_flush_cycle (fuel : nat) (bufs : Z * Z) (c : cycle) : M unit :=
  lv_render (held_buffer bufs c) (c_pixels c) ;;
  flush_cb fuel (c_area c) (held_buffer bufs c).

(** A finite prefix of the [while (1)] loop of [app_main]. *)
Fixpoint main_loop (fuel : nat) (bufs : Z * Z) (script : list cycle) : M unit :=
  match script with
  | [] => mret ()
  | c :: script' =>
      render_flush_cycle fuel bufs c ;; main_loop fuel bufs script'
  end.

Definition app_main (fuel : nat) (script : list cycle) : M unit :=
  bufs ← app_main_buffers; main_loop fuel bufs script.

(** The state at power-on: nothing allocated, nothing logged. *)
Definition power_on (addr : nat → Z) (fill : nat → nat → Z) : state :=
  mk_state ∅ 0 addr fill [] [].

(** ** The flush callback, portrait variant *)

Definition flush_cb_portrait (area : lv_area_t) (px_map : Z) : M unit :=
  let color_map := px_map in
  lv_draw_sw_rgb565_swap color_map
    (to_uint32 ((x2 area - x1 area + 1) * (y2 area - y1 area + 1))) ;;
  esp_lcd_panel_draw_bitmap (x1 area) (y1 area)
    (to_int32 (x2 area + 1)) (to_int32 (y2 area + 1)) color_map ;;
  lv_disp_flush_ready.

(** ** Observations on a trace *)

Definition draw_window (e : event) : option (Z * Z * Z * Z) :=
  match e with
  | EvDrawBitmap xs ys xe ye _ _ => Some (xs, ys, xe, ye)
  | _ => None
  end.

Definition draw_pointer (e : event) : option Z :=
  match e with
  | EvDrawBitmap _ _ _ _ p _ => Some p
  | _ => None
  end.

Definition is_alloc (e : event) : bool :=
  match e with EvAlloc _ _ _ => true | _ => false end.
Definition is_free (e : event) : bool :=
  match e with EvFree _ => true | _ => false end.
Definition is_diagnostic (e : event) : bool :=
  match e with EvLogE _ | EvAbort => true | _ => false end.

(** The windows of the bitmap writes of a trace, in order. *)
Definition draw_windows (t : list event) : list (Z * Z * Z * Z) :=
  omap draw_window t.

(** ** What the loops amount to *)

(** The bodies of a loop, run in the order of a list of counter values. *)
Fixpoint iter {I : Type} (l : list I) (body : I → M unit) : M unit :=
  match l with
  | [] => mret ()
  | i :: l' => body i ;; iter l' body
  end.

(** [i, i + step, ...], [n] values. *)
Fixpoint range_from (i step : Z) (n : nat) : list Z :=
  match n with
  | O => []
  | S n' => i :: range_from (i + step) step n'
  end.

Definition src_index (n x y : Z) : Z := (n + y) * cols + x.
Definition dst_index (x y : Z) : Z := x * rows + (rows - y - 1).

(** The innermost statement of the band copy. *)
Definition copy_pixel (color_map line_buf n : Z) (xy : Z * Z) : M unit :=
  v ← load color_map (to_int32 (src_index n xy.1 xy.2));
  store line_buf (to_int32 (dst_index xy.1 xy.2)) v.

(** The pairs (x, y) in the order in which the band copy visits them. *)
Definition band_pairs : list (Z * Z) :=
  x ← range_from 0 1 456; (λ y, (x, y)) <$> range_from 0 1 8.

(** A column of the logical width and a row offset within a band. *)
Definition pair_in_band (xy : Z * Z) : Prop :=
  0 ≤ xy.1 < 456 ∧ 0 ≤ xy.2 < 8.

(** Number of bands of a flush, and the row offsets at which they start. *)
Definition bands (area : lv_area_t) : nat :=
  Z.to_nat ((y2 area - y1 area + 7) / 8).
Definition band_starts (area : lv_area_t) : list Z :=
  range_from 0 rows (bands area).

(** The scratch tile after the band that starts at row offset [n] of the
    block [C] has been copied: sample [k] comes from column [k / 8] and row
    [n + (7 - k mod 8)]. *)
Definition tile_sample (C : list Z) (n k : Z) : Z :=
  default 0 (sample_at C (src_index n (k / rows) (rows - 1 - k mod rows))).
Definition rotated_band (C : list Z) (n : Z) : list Z :=
  tile_sample C n <$> range_from 0 1 3648.

Definition put_pixel (C : list Z) (n : Z) (L : list Z) (xy : Z * Z) : list Z :=
  <[Z.to_nat (dst_index xy.1 xy.2) :=
      default 0 (sample_at C (src_index n xy.1 xy.2))]> L.

Definition band_loads (px n : Z) : list (Z * Z) :=
  (λ xy, (px, src_index n xy.1 xy.2)) <$> band_pairs.

Definition band_window (y_top n : Z) : Z * Z * Z * Z :=
  (LCD_H_RES - y_top - n - rows, 0, LCD_H_RES - y_top - n, LCD_V_RES).

Definition band_draw (y_top line_buf : Z) (C : list Z) (n : Z) : event :=
  EvDrawBitmap (LCD_H_RES - y_top - n - rows) 0 (LCD_H_RES - y_top - n)
    LCD_V_RES line_buf (rotated_band C n).

(** The pixel count handed to the normalizer. *)
Definition swap_count (area : lv_area_t) : Z :=
  to_uint32 ((x2 area - x1 area + 1) * (y2 area - y1 area + 1)).

(** No signed overflow in the arithmetic on the rows of the rectangle, and
    the 16-bit band counter reaches the height without wrapping. *)
Definition area_bounded (area : lv_area_t) : Prop :=
  - 2 ^ 30 ≤ y1 area ≤ 2 ^ 30 ∧ - 2 ^ 30 ≤ y2 area ≤ 2 ^ 30 ∧
  y2 area - y1 area ≤ 65528.

(** A flush that can run to completion: [px_map] points to a live block [C0]
    that holds the pixels to swap and every row the bands read, and the
    allocator answers with a new object. *)
Definition flush_pre (area : lv_area_t) (px_map : Z) (C0 : list Z)
    (s : state) : Prop :=
  heap s !! px_map = Some C0 ∧
  swap_count area ≤ Z.of_nat (length C0) ∧
  alloc_addr s (nalloc s) ≠ 0 ∧
  heap s !! alloc_addr s (nalloc s) = None ∧
  area_bounded area ∧
  (8 * Z.of_nat (bands area)) * cols ≤ Z.of_nat (length C0).

(** ** Invariants of a run *)

(** The same addresses hold live objects in both heaps. *)
Definition same_live (h1 h2 : gmap Z (list Z)) : Prop :=
  ∀ p : Z, h1 !! p = None ↔ h2 !! p = None.

(** Every bitmap write among the events hands [lb] to the panel driver. *)
Definition draws_from (lb : Z) (evs : list event) : Prop :=
  Forall (λ e, ∀ p, draw_pointer e = Some p → p = lb) evs.

(** While the bands are processed: the trace grows by bitmap writes of the
    scratch tile only, objects are neither created nor destroyed, and the
    allocator is not called. *)
Definition band_inv (lb : Z) (T : list event) (h : gmap Z (list Z))
    (s : state) : Prop :=
  (∃ ds, trace s = T ++ ds ∧ Forall (λ e, draw_pointer e = Some lb) ds) ∧
  same_live (heap s) h.

(** The two pixel buffers are live objects, and no bitmap write of the trace
    was handed either of them. *)
Definition draws_avoid (b1 b2 : Z) (t : list event) : Prop :=
  Forall (λ e, ∀ p, draw_pointer e = Some p → p ≠ b1 ∧ p ≠ b2) t.
Definition buffers_inv (b1 b2 : Z) (s : state) : Prop :=
  b1 ≠ 0 ∧ b2 ≠ 0 ∧ is_Some (heap s !! b1) ∧ is_Some (heap s !! b2) ∧
  draws_avoid b1 b2 (trace s).

(** ** Concrete states *)

(** The samples [0, 1, ..., n - 1]. *)
Definition ramp (n : Z) : list Z := range_from 0 1 (Z.to_nat n).

(** A state in which the object at address 100 holds the samples
    [0, 1, ..., n - 1], nothing else is live, and the allocator answers every
    request with [lb]. *)
Definition one_block (n : Z) (lb : Z) : state :=
  mk_state {[ 100 := ramp n ]} 0 (λ _, lb) (λ _ _, 0) [] [].

(** The same with a scratch tile of zeroes at address 200. *)
Definition two_blocks (n : Z) : state :=
  mk_state (<[200 := replicate 3648 0]> {[ 100 := ramp n ]})
    0 (λ _, 0) (λ _ _, 0) [] [].

(** ** Properties of the loads and events of one flush *)

(** No sample is read past the last row of the region. *)
Definition reads_within_region (area : lv_area_t) (ld : list (Z * Z)) : Prop :=
  ∀ p i, (p, i) ∈ ld → 0 ≤ i < (y2 area - y1 area + 1) * cols.

(** Nothing is allocated and nothing is freed. *)
Definition allocation_free (evs : list event) : Prop :=
  filter (λ e, is_alloc e || is_free e) evs = [].

(** ** Rectangles on a display *)

(** A well-formed rectangle inside a display of [w] by [h] pixels. *)
Definition area_in_display (w h : Z) (a : lv_area_t) : Prop :=
  0 ≤ x1 a ∧ x1 a ≤ x2 a ∧ x2 a < w ∧ 0 ≤ y1 a ∧ y1 a ≤ y2 a ∧ y2 a < h.

(** A rectangle on the update grid of the panel: it starts on a multiple of
    8 and ends one pixel before one, on both axes. *)
Definition area_aligned (a : lv_area_t) : Prop :=
  x1 a mod 8 = 0 ∧ y1 a mod 8 = 0 ∧ x2 a mod 8 = 7 ∧ y2 a mod 8 = 7.

(** ** Variations of a state *)

(** The same state, with other indeterminate values in the objects that the
    allocator will hand out. *)
Definition with_fill (fill : nat → nat → Z) (s : state) : state :=
  mk_state (heap s) (nalloc s) (alloc_addr s) fill (trace s) (loads s).

(** ** The panel's view of a bitmap write *)


(** The native column [nx] lies in the window. *)
Definition window_has_column (nx : Z) (w : Z * Z * Z * Z) : Prop :=
  w.1.1.1 ≤ nx < w.1.2.

(** ** The band counter past its range *)

(** The values that the 16-bit band counter takes in its first [k] rounds
    when nothing stops it: [0, 8, ...], back to 0 after 65528. *)
Definition wrapped_band_starts (k : nat) : list Z :=
  (λ j, to_uint16 (rows * Z.of_nat j)) <$> seq 0 k.

(** ** Further observations on a trace *)

Definition is_flush_ready (e : event) : bool :=
  match e with EvFlushReady => true | _ => false end.

Definition is_set_buffers (e : event) : bool :=
  match e with EvSetBuffers _ _ _ => true | _ => false end.

(** * Proofs *)

(** ** Arithmetic of the conversions *)

Lemma to_int32_id z : is_int32 z → to_int32 z = z.
Proof.
  unfold is_int32, to_int32. intros Hz.
  rewrite Z.mod_small by lia. lia.
Qed.

Lemma to_uint32_range z : 0 ≤ to_uint32 z < 2 ^ 32.
Proof. unfold to_uint32. apply Z.mod_pos_bound. lia. Qed.

Lemma to_int32_to_uint32 z : to_int32 (to_uint32 z) = to_int32 z.
Proof.
  unfold to_int32, to_uint32.
  by rewrite Zplus_mod_idemp_l.
Qed.

(** Clearing the three low bits is rounding down to a multiple of 8. *)
Lemma land_lnot_7 z : Z.land z (Z.lnot 7) = 8 * (z / 8).
Proof.
  rewrite <- Z.ldiff_land.
  change 7 with (Z.ones 3).
  rewrite Z.ldiff_ones_r by lia.
  rewrite Z.shiftl_mul_pow2, Z.shiftr_div_pow2 by lia.
  change (2 ^ 3) with 8. lia.
Qed.

(** The same mask, applied in [unsigned] arithmetic. *)
Lemma land_not_0x7U z :
  Z.land (to_uint32 z) not_0x7U = to_uint32 (Z.land z (Z.lnot 7)).
Proof.
  unfold not_0x7U, to_uint32.
  rewrite <- !Z.land_ones by lia.
  apply Z.bits_inj'. intros n Hn.
  rewrite !Z.land_spec.
  destruct (Z.testbit z n), (Z.testbit (Z.lnot 7) n),
    (Z.testbit (Z.ones 32) n); reflexivity.
Qed.

Lemma round_down_int32 z :
  is_int32 z → to_int32 (Z.land (to_uint32 z) not_0x7U) = 8 * (z / 8).
Proof.
  intros Hz. rewrite land_not_0x7U, to_int32_to_uint32, land_lnot_7.
  apply to_int32_id. unfold is_int32 in *.
  pose proof (Z.div_mod z 8). pose proof (Z.mod_pos_bound z 8). lia.
Qed.

Lemma round_up_int32 z :
  is_int32 z →
  to_int32 (to_uint32 (Z.land (to_uint32 z) not_0x7U + 7)) = 8 * (z / 8) + 7.
Proof.
  intros Hz. rewrite land_not_0x7U, to_int32_to_uint32.
  unfold to_int32 at 1, to_uint32.
  rewrite <- Z.add_assoc, Zplus_mod_idemp_l, Z.add_assoc.
  fold (to_int32 (Z.land z (Z.lnot 7) + 7)).
  rewrite land_lnot_7. apply to_int32_id. unfold is_int32 in *.
  pose proof (Z.div_mod z 8). pose proof (Z.mod_pos_bound z 8). lia.
Qed.

(** C3.  For every requested dirty rectangle whose bounds are [int32_t]
    values, the rounder rounds x1 and y1 down to the nearest multiple of 8,
    sets x2 to [(x2 & ~7) + 7] and y2 to [(y2 & ~7) + 7], the requested
    rectangle is contained in the result, and each far edge grows by at most
    7 pixels. *)
Theorem rounder_quantizes (a : lv_area_t) :
  area_int32 a →
  let q := lvgl_display_rounder_callback a in
  (x1 q = 8 * (x1 a / 8) ∧ y1 q = 8 * (y1 a / 8)) ∧
  (x1 q mod 8 = 0 ∧ y1 q mod 8 = 0 ∧ x1 a - 7 ≤ x1 q ∧ y1 a - 7 ≤ y1 q) ∧
  (x2 q = Z.land (x2 a) (Z.lnot 7) + 7 ∧ y2 q = Z.land (y2 a) (Z.lnot 7) + 7) ∧
  area_within a q ∧
  (x2 q ≤ x2 a + 7 ∧ y2 q ≤ y2 a + 7).
Proof.
  intros (Hx1 & Hy1 & Hx2 & Hy2) q. subst q.
  unfold area_within; simpl.
  rewrite !round_down_int32, !round_up_int32, !land_lnot_7 by done.
  pose proof (Z.mod_pos_bound (x1 a) 8).
  pose proof (Z.mod_pos_bound (y1 a) 8).
  pose proof (Z.mod_pos_bound (x2 a) 8).
  pose proof (Z.mod_pos_bound (y2 a) 8).
  pose proof (Z.div_mod (x1 a) 8).
  pose proof (Z.div_mod (y1 a) 8).
  pose proof (Z.div_mod (x2 a) 8).
  pose proof (Z.div_mod (y2 a) 8).
  rewrite !(Z.mul_comm 8), !Z.mod_mul by lia.
  lia.
Qed.

Lemma rounder_quantizes_witness :
  let a := mk_area 10 3 50 9 in
  area_int32 a ∧ area_within a (lvgl_display_rounder_callback a).
Proof.
  split.
  - unfold area_int32, is_int32; simpl; lia.
  - apply (rounder_quantizes (mk_area 10 3 50 9)).
    unfold area_int32, is_int32; simpl; lia.
Defined.

(** ** Loops *)

Lemma bind_run {A B} (m : M A) (k : A → M B) (s : state) :
  (m ≫= k) s = match m s with Ok a s' => k a s' | Err e s' => Err e s' end.
Proof. reflexivity. Qed.

(** A counted loop whose counter never leaves its type runs its body on
    [i, i + step, ...] while the value is below the bound. *)
Lemma for_loop_range (lim : Z) (conv : Z → Z) (body : Z → M unit)
    (bound step : Z) :
  0 < step →
  (∀ z, 0 ≤ z < lim → conv z = z) →
  bound + step ≤ lim →
  ∀ (n : nat) (i : Z) (fuel : nat) (s : state),
    0 ≤ i → (n < fuel)%nat →
    bound ≤ i + Z.of_nat n * step →
    (n ≠ 0%nat → i + (Z.of_nat n - 1) * step < bound) →
    for_loop fuel conv i bound step body s = iter (range_from i step n) body s.
Proof.
  intros Hstep Hconv Hlim n.
  induction n as [|n IH]; intros i fuel s Hi Hfuel Hge Hlt;
    (destruct fuel as [|fuel]; [lia|]); simpl.
  - destruct (Z.ltb_spec i bound); [lia | reflexivity].
  - assert (i < bound) by (specialize (Hlt ltac:(lia)); nia).
    destruct (Z.ltb_spec i bound); [|lia].
    rewrite !bind_run. destruct (body i s) as [[] s1|]; [|reflexivity].
    rewrite Hconv by lia.
    apply IH; [lia | lia | lia |]. intros Hn. specialize (Hlt ltac:(lia)). lia.
Qed.

(** The band counter is 16 bits wide: when the bound is above 65528 it wraps
    from 65528 to 0 and the loop never ends, whatever the fuel. *)
Lemma band_loop_wraps (fuel : nat) (bound : Z) (body : Z → M unit) :
  65528 < bound →
  ∀ (n : Z) (s : state), 0 ≤ n ≤ 65528 → n mod 8 = 0 →
    ∀ s', for_loop fuel to_uint16 n bound rows body s ≠ Ok () s'.
Proof.
  intros Hbound. induction fuel as [|fuel IH]; intros n s Hn Hmod s'; simpl.
  - discriminate.
  - destruct (Z.ltb_spec n bound); [|lia].
    rewrite bind_run. destruct (body n s) as [[] s1|e s1]; [|discriminate].
    apply IH.
    + unfold to_uint16, rows.
      pose proof (Z.mod_pos_bound (n + 8) (2 ^ 16) ltac:(lia)).
      destruct (decide (n = 65528)) as [-> | Hne]; [vm_compute; split; discriminate|].
      pose proof (Z.div_mod n 8 ltac:(lia)).
      rewrite Z.mod_small by lia. lia.
    + unfold to_uint16, rows.
      rewrite Z.mod_mod_divide by (exists 8192; reflexivity).
      rewrite <- Z.add_mod_idemp_l, Hmod by lia. reflexivity.
Qed.

Lemma iter_app {I} (l1 l2 : list I) (body : I → M unit) (s : state) :
  iter (l1 ++ l2) body s = (iter l1 body ;; iter l2 body) s.
Proof.
  revert s. induction l1 as [|i l1 IH]; intros s; simpl; [reflexivity|].
  rewrite !bind_run. destruct (body i s) as [[] s1|]; [|reflexivity].
  rewrite IH. reflexivity.
Qed.

Lemma iter_fmap {I J} (f : I → J) (l : list I) (body : J → M unit) (s : state) :
  iter (f <$> l) body s = iter l (body ∘ f) s.
Proof.
  revert s. induction l as [|i l IH]; intros s; simpl; [reflexivity|].
  rewrite !bind_run. destruct (body (f i) s) as [[] s1|]; [|reflexivity].
  apply IH.
Qed.

(** Two nested loops visit the pairs of counter values in row-major order. *)
Lemma iter_nested {I J} (l : list I) (g : I → list J)
    (body : I → J → M unit) (s : state) :
  iter l (λ x, iter (g x) (body x)) s
  = iter (x ← l; (λ y, (x, y)) <$> g x) (λ xy, body xy.1 xy.2) s.
Proof.
  revert s. induction l as [|x l IH]; intros s; [reflexivity|].
  change ((x :: l) ≫= (λ x0, (λ y, (x0, y)) <$> g x0))
    with (((λ y, (x, y)) <$> g x) ++ (l ≫= (λ x0, (λ y, (x0, y)) <$> g x0))).
  rewrite iter_app. simpl. rewrite !bind_run.
  rewrite iter_fmap. unfold compose. simpl.
  destruct (iter (g x) (body x) s) as [[] s1|]; [|reflexivity].
  apply IH.
Qed.

Lemma iter_ext {I} (l : list I) (b1 b2 : I → M unit) (s : state) :
  (∀ i s', b1 i s' = b2 i s') → iter l b1 s = iter l b2 s.
Proof.
  intros Hb. revert s. induction l as [|i l IH]; intros s; simpl; [reflexivity|].
  rewrite !bind_run, Hb. destruct (b2 i s) as [[] s1|]; [|reflexivity].
  apply IH.
Qed.

Lemma to_uint8_small z : 0 ≤ z < 256 → to_uint8 z = z.
Proof. unfold to_uint8. intros Hz. by rewrite Z.mod_small. Qed.

Lemma to_uint16_small z : 0 ≤ z < 65536 → to_uint16 z = z.
Proof. unfold to_uint16. intros Hz. by rewrite Z.mod_small. Qed.

(** The band copy visits [band_pairs]. *)
Lemma copy_band_iter (fuel : nat) (color_map line_buf n : Z) (s : state) :
  (456 < fuel)%nat →
  copy_band fuel color_map line_buf n s
  = iter band_pairs (copy_pixel color_map line_buf n) s.
Proof.
  intros Hfuel. unfold copy_band, band_pairs.
  rewrite (for_loop_range 65536 to_uint16 _ LVGL_WIDTH 1 ltac:(lia)
             to_uint16_small ltac:(unfold LVGL_WIDTH; lia) 456)
    by (unfold LVGL_WIDTH; lia).
  rewrite <- (iter_nested (range_from 0 1 456) (λ _, range_from 0 1 8)
                (λ x y, copy_pixel color_map line_buf n (x, y))).
  apply iter_ext. intros x s'.
  rewrite (for_loop_range 256 to_uint8 _ rows 1 ltac:(lia)
             to_uint8_small ltac:(unfold rows; lia) 8)
    by (unfold rows; lia).
  reflexivity.
Qed.

(** ** Memory accesses *)

Lemma sample_at_lt (l : list Z) (i : Z) :
  0 ≤ i < Z.of_nat (length l) → ∃ v, sample_at l i = Some v.
Proof.
  intros Hi. unfold sample_at.
  destruct (Z.ltb_spec i 0); [lia|].
  apply lookup_lt_is_Some_2. lia.
Qed.

Lemma load_ok (p i v : Z) (l : list Z) (s : state) :
  heap s !! p = Some l → sample_at l i = Some v →
  load p i s = Ok v (log_load p i s).
Proof. intros Hp Hi. unfold load. by rewrite Hp, Hi. Qed.

Lemma store_ok (p i v w : Z) (l : list Z) (s : state) :
  heap s !! p = Some l → sample_at l i = Some w →
  store p i v s = Ok () (set_heap (<[p := <[Z.to_nat i := v]> l]> (heap s)) s).
Proof. intros Hp Hi. unfold store. by rewrite Hp, Hi. Qed.

Lemma src_index_int32 (n x y : Z) :
  0 ≤ n ≤ 65535 → 0 ≤ x < 456 → 0 ≤ y < 8 →
  to_int32 (src_index n x y) = src_index n x y.
Proof.
  intros. apply to_int32_id.
  unfold is_int32, src_index, cols, LVGL_WIDTH. lia.
Qed.

Lemma dst_index_int32 (x y : Z) :
  0 ≤ x < 456 → 0 ≤ y < 8 → to_int32 (dst_index x y) = dst_index x y.
Proof.
  intros. apply to_int32_id.
  unfold is_int32, dst_index, rows. lia.
Qed.

Lemma length_foldl_put_pixel (C : list Z) (n : Z) (ps : list (Z * Z)) (L : list Z) :
  length (foldl (put_pixel C n) L ps) = length L.
Proof.
  revert L. induction ps as [|xy ps IH]; intros L; simpl; [done|].
  rewrite IH. unfold put_pixel. by rewrite length_insert.
Qed.

(** The copies of a list of pairs, as one update of the scratch tile. *)
Lemma iter_copy_pixels (cm lb n : Z) (C : list Z) (ps : list (Z * Z)) :
  cm ≠ lb → 0 ≤ n ≤ 65535 →
  Forall pair_in_band ps →
  (n + 8) * 456 ≤ Z.of_nat (length C) →
  ∀ (L : list Z) (s : state),
    heap s !! cm = Some C → heap s !! lb = Some L → length L = 3648%nat →
    iter ps (copy_pixel cm lb n) s
    = Ok () (mk_state (<[lb := foldl (put_pixel C n) L ps]> (heap s))
               (nalloc s) (alloc_addr s) (alloc_fill s) (trace s)
               (loads s ++ ((λ xy, (cm, src_index n xy.1 xy.2)) <$> ps))).
Proof.
  intros Hne Hn Hps HC.
  induction Hps as [|[x y] ps [Hx Hy] Hps IH]; intros L s Hcm Hlb HL; simpl in *.
  - rewrite insert_id by done. rewrite app_nil_r. by destruct s.
  - destruct (sample_at_lt C (src_index n x y)) as [v Hv].
    { unfold src_index, cols, LVGL_WIDTH. lia. }
    destruct (sample_at_lt L (dst_index x y)) as [w Hw].
    { unfold dst_index, rows. lia. }
    rewrite bind_run. unfold copy_pixel at 1. simpl.
    rewrite bind_run, src_index_int32, dst_index_int32 by done.
    rewrite (load_ok _ _ _ _ _ Hcm Hv).
    rewrite (store_ok _ _ _ w L) by done.
    rewrite (IH (<[Z.to_nat (dst_index x y) := v]> L)); simpl.
    + rewrite insert_insert_eq, <- app_assoc. simpl.
      replace (put_pixel C n L (x, y))
        with (<[Z.to_nat (dst_index x y) := v]> L); [reflexivity|].
      unfold put_pixel. simpl. by rewrite Hv.
    + by rewrite lookup_insert_ne.
    + by rewrite lookup_insert_eq.
    + by rewrite length_insert.
Qed.

Lemma range_from_lookup (i step : Z) (n k : nat) :
  (k < n)%nat → range_from i step n !! k = Some (i + Z.of_nat k * step).
Proof.
  revert i k. induction n as [|n IH]; intros i k Hk; [lia|].
  destruct k as [|k]; simpl.
  - f_equal. lia.
  - rewrite IH by lia. f_equal. lia.
Qed.

Lemma length_range_from (i step : Z) (n : nat) : length (range_from i step n) = n.
Proof. revert i. induction n as [|n IH]; intros i; simpl; [done|]. by rewrite IH. Qed.

Lemma elem_of_range_from (i step : Z) (n : nat) (z : Z) :
  z ∈ range_from i step n ↔ ∃ k : nat, (k < n)%nat ∧ z = i + Z.of_nat k * step.
Proof.
  rewrite list_elem_of_lookup. split.
  - intros [k Hk]. exists k.
    assert (k < n)%nat.
    { rewrite <- (length_range_from i step n). by eapply lookup_lt_Some. }
    rewrite range_from_lookup in Hk by done. split; [done | congruence].
  - intros (k & Hk & ->). exists k. by apply range_from_lookup.
Qed.

Lemma elem_of_band_pairs (xy : Z * Z) : xy ∈ band_pairs ↔ pair_in_band xy.
Proof.
  unfold band_pairs, pair_in_band. rewrite list_elem_of_bind. split.
  - intros (x & Hy & Hx).
    apply list_elem_of_fmap in Hy as (y & -> & Hy).
    apply elem_of_range_from in Hx as (kx & ? & ->).
    apply elem_of_range_from in Hy as (ky & ? & ->). simpl. lia.
  - destruct xy as [x y]. intros [Hx Hy]. simpl in Hx, Hy.
    exists x. split.
    + apply list_elem_of_fmap. exists y. split; [done|].
      apply elem_of_range_from. exists (Z.to_nat y). lia.
    + apply elem_of_range_from. exists (Z.to_nat x). lia.
Qed.

Lemma band_pairs_in_band : Forall pair_in_band band_pairs.
Proof. apply Forall_forall. intros xy. apply elem_of_band_pairs. Qed.

(** ** The scratch tile after a band copy *)

Lemma dst_index_inj (x y x' y' : Z) :
  pair_in_band (x, y) → pair_in_band (x', y') →
  dst_index x y = dst_index x' y' → x = x' ∧ y = y'.
Proof. unfold pair_in_band, dst_index, rows; simpl. lia. Qed.

Lemma foldl_put_pixel_lookup (C : list Z) (n x y : Z) (L : list Z)
    (ps : list (Z * Z)) :
  Forall pair_in_band ps → (x, y) ∈ ps → length L = 3648%nat →
  foldl (put_pixel C n) L ps !! Z.to_nat (dst_index x y)
  = Some (default 0 (sample_at C (src_index n x y))).
Proof.
  intros Hps Hin HL. induction ps as [|q ps IH] using rev_ind; [by inversion Hin|].
  apply Forall_app in Hps as [Hps Hq]. inversion_clear Hq as [|? ? Hq' _].
  assert (pair_in_band (x, y)) as Hxy.
  { apply elem_of_app in Hin as [Hin | Hin%list_elem_of_singleton].
    - by eapply Forall_forall in Hps.
    - by subst q. }
  rewrite foldl_app. simpl. unfold put_pixel at 1.
  destruct (decide (dst_index q.1 q.2 = dst_index x y)) as [Heq | Hneq].
  - destruct q as [x' y']. simpl in *.
    destruct (dst_index_inj x' y' x y Hq' Hxy Heq) as [-> ->].
    apply list_lookup_insert_eq.
    rewrite length_foldl_put_pixel, HL.
    unfold pair_in_band, dst_index, rows in *; simpl in *. lia.
  - rewrite list_lookup_insert_ne.
    + apply IH; [done|].
      apply elem_of_app in Hin as [Hin | Hin%list_elem_of_singleton]; [done|].
      by subst q.
    + destruct q as [x' y'].
      unfold pair_in_band, dst_index, rows in *; simpl in *. lia.
Qed.

(** After a whole band has been copied the tile does not depend on what it
    held before. *)
Lemma foldl_put_pixel_band (C : list Z) (n : Z) (L : list Z) :
  length L = 3648%nat →
  foldl (put_pixel C n) L band_pairs = rotated_band C n.
Proof.
  intros HL. apply list_eq. intros k.
  destruct (decide (k < 3648)%nat) as [Hk | Hk].
  - pose (x := Z.of_nat k / 8). pose (y := 7 - Z.of_nat k mod 8).
    pose proof (Z.div_mod (Z.of_nat k) 8 ltac:(lia)) as Hdm.
    pose proof (Z.mod_pos_bound (Z.of_nat k) 8 ltac:(lia)) as Hmod.
    assert (pair_in_band (x, y)) as Hxy.
    { unfold pair_in_band; simpl. subst x y. split; [|lia].
      split; [apply Z.div_pos; lia | apply Z.div_lt_upper_bound; lia]. }
    assert (Z.to_nat (dst_index x y) = k) as Hdst.
    { unfold dst_index, rows. subst x y. lia. }
    rewrite <- Hdst at 1.
    rewrite (foldl_put_pixel_lookup C n x y L band_pairs band_pairs_in_band)
      by (by rewrite ?elem_of_band_pairs).
    unfold rotated_band. rewrite list_lookup_fmap, range_from_lookup by done.
    simpl. unfold tile_sample, rows.
    rewrite Z.add_0_l, Z.mul_1_r. subst x y.
    solve [reflexivity | repeat f_equal; lia].
  - rewrite !lookup_ge_None_2; [done | |].
    + unfold rotated_band. rewrite length_fmap, length_range_from. lia.
    + rewrite length_foldl_put_pixel. lia.
Qed.

Lemma length_rotated_band (C : list Z) (n : Z) :
  length (rotated_band C n) = 3648%nat.
Proof. unfold rotated_band. by rewrite length_fmap, length_range_from. Qed.

(** The sample that the band copy leaves at [x * rows + (rows - 1 - y)]. *)
Lemma rotated_band_sample (C : list Z) (n x y : Z) :
  pair_in_band (x, y) →
  sample_at (rotated_band C n) (dst_index x y)
  = Some (default 0 (sample_at C (src_index n x y))).
Proof.
  intros Hxy. unfold sample_at.
  assert (0 ≤ dst_index x y < 3648) as Hd
    by (unfold pair_in_band, dst_index, rows in *; simpl in *; lia).
  destruct (Z.ltb_spec (dst_index x y) 0); [lia|].
  rewrite <- (foldl_put_pixel_band C n (replicate 3648 0))
    by apply length_replicate.
  apply foldl_put_pixel_lookup.
  - apply band_pairs_in_band.
  - by apply elem_of_band_pairs.
  - apply length_replicate.
Qed.

(** The band copy, under the conditions in which it runs to its end. *)
Lemma copy_band_run (fuel : nat) (cm lb n : Z) (C L : list Z) (s : state) :
  (456 < fuel)%nat → cm ≠ lb → 0 ≤ n ≤ 65535 →
  (n + 8) * 456 ≤ Z.of_nat (length C) →
  heap s !! cm = Some C → heap s !! lb = Some L → length L = 3648%nat →
  copy_band fuel cm lb n s
  = Ok () (mk_state (<[lb := rotated_band C n]> (heap s))
             (nalloc s) (alloc_addr s) (alloc_fill s) (trace s)
             (loads s ++ band_loads cm n)).
Proof.
  intros Hfuel Hne Hn HC Hcm Hlb HL.
  rewrite copy_band_iter by done.
  rewrite (iter_copy_pixels cm lb n C band_pairs Hne Hn band_pairs_in_band
             HC L s Hcm Hlb HL).
  by rewrite foldl_put_pixel_band.
Qed.

(** ** One band, all bands *)

Lemma flush_band_run (fuel : nat) (a : lv_area_t) (cm lb n : Z)
    (C L : list Z) (s : state) :
  (456 < fuel)%nat → cm ≠ lb → 0 ≤ n ≤ 65535 →
  - 2 ^ 30 ≤ y1 a ≤ 2 ^ 30 →
  (n + 8) * 456 ≤ Z.of_nat (length C) →
  heap s !! cm = Some C → heap s !! lb = Some L → length L = 3648%nat →
  flush_band fuel a cm lb n s
  = Ok () (mk_state (<[lb := rotated_band C n]> (heap s))
             (nalloc s) (alloc_addr s) (alloc_fill s)
             (trace s ++ [band_draw (y1 a) lb C n])
             (loads s ++ band_loads cm n)).
Proof.
  intros Hfuel Hne Hn Hy1 HC Hcm Hlb HL.
  unfold flush_band. rewrite bind_run.
  rewrite (copy_band_run fuel cm lb n C L s) by done.
  assert (to_int32 (LCD_H_RES - y1 a - n) = LCD_H_RES - y1 a - n) as ->.
  { apply to_int32_id. unfold is_int32, LCD_H_RES. lia. }
  assert (to_int32 (LCD_H_RES - y1 a - n - rows) = LCD_H_RES - y1 a - n - rows)
    as ->.
  { apply to_int32_id. unfold is_int32, LCD_H_RES, rows. lia. }
  unfold esp_lcd_panel_draw_bitmap. simpl.
  rewrite lookup_insert_eq.
  replace ((LCD_H_RES - y1 a - n - (LCD_H_RES - y1 a - n - rows))
           * (LCD_V_RES - 0)) with 3648 by (unfold rows, LCD_V_RES; lia).
  rewrite length_rotated_band.
  destruct (Z.leb_spec 3648 (Z.of_nat 3648)); [|lia].
  rewrite take_ge by (rewrite length_rotated_band; lia).
  reflexivity.
Qed.

Lemma iter_bands_run (fuel : nat) (a : lv_area_t) (cm lb : Z) (C : list Z)
    (ns : list Z) :
  (456 < fuel)%nat → cm ≠ lb → - 2 ^ 30 ≤ y1 a ≤ 2 ^ 30 →
  Forall (λ n, 0 ≤ n ≤ 65535 ∧ (n + 8) * 456 ≤ Z.of_nat (length C)) ns →
  ∀ (L : list Z) (s : state),
    heap s !! cm = Some C → heap s !! lb = Some L → length L = 3648%nat →
    iter ns (flush_band fuel a cm lb) s
    = Ok () (mk_state
               (<[lb := foldl (λ _ n, rotated_band C n) L ns]> (heap s))
               (nalloc s) (alloc_addr s) (alloc_fill s)
               (trace s ++ (band_draw (y1 a) lb C <$> ns))
               (loads s ++ concat (band_loads cm <$> ns))).
Proof.
  intros Hfuel Hne Hy1 Hns.
  induction Hns as [|n ns [Hn HC] Hns IH]; intros L s Hcm Hlb HL.
  - simpl. rewrite insert_id by done. rewrite !app_nil_r. by destruct s.
  - cbn [iter]. rewrite bind_run.
    rewrite (flush_band_run fuel a cm lb n C L s) by done.
    rewrite (IH (rotated_band C n)); cbn [heap nalloc alloc_addr alloc_fill trace loads].
    + rewrite insert_insert_eq, <- !app_assoc. reflexivity.
    + by rewrite lookup_insert_ne.
    + by rewrite lookup_insert_eq.
    + apply length_rotated_band.
Qed.

(** ** The whole callback *)

Lemma length_rgb565_swap (buf : list Z) (n : nat) :
  length (rgb565_swap buf n) = length buf.
Proof.
  unfold rgb565_swap.
  rewrite length_app, length_fmap, <- length_app, take_drop. done.
Qed.

Lemma lv_draw_sw_rgb565_swap_run (buf cnt : Z) (l : list Z) (s : state) :
  heap s !! buf = Some l → 0 ≤ cnt ≤ Z.of_nat (length l) →
  lv_draw_sw_rgb565_swap buf cnt s
  = Ok () (set_heap (<[buf := rgb565_swap l (Z.to_nat cnt)]> (heap s))
             (emit (EvSwap buf cnt) s)).
Proof.
  intros Hbuf Hcnt. unfold lv_draw_sw_rgb565_swap.
  destruct (Z.eqb_spec cnt 0) as [-> | Hnz].
  - unfold rgb565_swap. simpl. rewrite drop_0, insert_id by done.
    by destruct s.
  - rewrite Hbuf. destruct (Z.leb_spec cnt (Z.of_nat (length l))); [done | lia].
Qed.

Lemma heap_caps_aligned_alloc_run (alignment size : Z) (s : state) :
  alloc_addr s (nalloc s) ≠ 0 →
  heap s !! alloc_addr s (nalloc s) = None →
  heap_caps_aligned_alloc alignment size s
  = Ok (alloc_addr s (nalloc s))
      (set_heap (<[alloc_addr s (nalloc s) :=
                     alloc_fill s (nalloc s) <$> seq 0 (Z.to_nat (size / 2))]>
                   (heap s))
         (emit (EvAlloc alignment size (alloc_addr s (nalloc s)))
            (count_alloc s))).
Proof.
  intros Hnz Hfresh. unfold heap_caps_aligned_alloc.
  destruct (Z.eqb_spec (alloc_addr s (nalloc s)) 0); [done|].
  by rewrite Hfresh.
Qed.

Lemma bands_spec (a : lv_area_t) :
  y2 a - y1 a ≤ 8 * Z.of_nat (bands a) ∧
  (bands a ≠ 0%nat → 8 * (Z.of_nat (bands a) - 1) < y2 a - y1 a).
Proof.
  unfold bands.
  pose proof (Z.div_mod (y2 a - y1 a + 7) 8 ltac:(lia)).
  pose proof (Z.mod_pos_bound (y2 a - y1 a + 7) 8 ltac:(lia)).
  destruct (Z.le_gt_cases 0 ((y2 a - y1 a + 7) / 8)); lia.
Qed.

Lemma band_starts_bounds (a : lv_area_t) (n : Z) :
  n ∈ band_starts a →
  0 ≤ n ∧ n mod 8 = 0 ∧ n < y2 a - y1 a ∧ n + 8 ≤ 8 * Z.of_nat (bands a).
Proof.
  unfold band_starts, rows.
  intros (k & Hk & ->)%elem_of_range_from.
  destruct (bands_spec a) as [_ Hb].
  rewrite Z.add_0_l, Z.mod_mul by lia.
  specialize (Hb ltac:(lia)). lia.
Qed.

(** The loop over the bands visits [band_starts]. *)
Lemma band_loop_iter (fuel : nat) (a : lv_area_t) (body : Z → M unit)
    (s : state) :
  area_bounded a → (bands a < fuel)%nat →
  for_loop fuel to_uint16 0 (to_int32 (y2 a - y1 a)) rows body s
  = iter (band_starts a) body s.
Proof.
  intros (Hy1 & Hy2 & Hh) Hfuel.
  rewrite to_int32_id by (unfold is_int32; lia).
  destruct (bands_spec a) as [Hb1 Hb2].
  unfold band_starts.
  apply (for_loop_range 65536); unfold rows;
    [lia | apply to_uint16_small | lia | lia | done | lia |].
  intros Hn. specialize (Hb2 Hn). lia.
Qed.

Lemma swap_count_range (a : lv_area_t) : 0 ≤ swap_count a < 2 ^ 32.
Proof. apply to_uint32_range. Qed.

Lemma flush_pre_fresh (a : lv_area_t) (px : Z) (C0 : list Z) (s : state) :
  flush_pre a px C0 s → px ≠ alloc_addr s (nalloc s).
Proof. intros (Hpx & _ & _ & Hfresh & _) ->. congruence. Qed.

(** The run of [flush_cb] on a well-formed request: the final state, with
    every event and every load. *)
Lemma flush_cb_run (fuel : nat) (a : lv_area_t) (px : Z) (C0 : list Z)
    (s : state) :
  flush_pre a px C0 s → (456 < fuel)%nat → (bands a < fuel)%nat →
  flush_cb fuel a px s
  = Ok () (mk_state
             (<[px := rgb565_swap C0 (Z.to_nat (swap_count a))]> (heap s))
             (S (nalloc s)) (alloc_addr s) (alloc_fill s)
             (trace s
              ++ [EvLogI (LogFlushing a); EvSwap px (swap_count a);
                  EvAlloc 64 7296 (alloc_addr s (nalloc s))]
              ++ (band_draw (y1 a) (alloc_addr s (nalloc s))
                    (rgb565_swap C0 (Z.to_nat (swap_count a)))
                  <$> band_starts a)
              ++ [EvFree (alloc_addr s (nalloc s)); EvFlushReady])
             (loads s ++ concat (band_loads px <$> band_starts a))).
Proof.
  intros Hpre Hfuel Hbands.
  pose proof (flush_pre_fresh a px C0 s Hpre) as Hne.
  destruct Hpre as (Hpx & Hcnt & Hnz & Hfresh & Hab & Hrows).
  set (lb := alloc_addr s (nalloc s)) in *.
  set (C := rgb565_swap C0 (Z.to_nat (swap_count a))).
  unfold flush_cb. fold (swap_count a).
  rewrite bind_run. unfold esp_logi at 1.
  rewrite bind_run.
  rewrite (lv_draw_sw_rgb565_swap_run px (swap_count a) C0);
    [| done | pose proof (swap_count_range a); lia].
  fold C. rewrite bind_run.
  rewrite heap_caps_aligned_alloc_run;
    cbn [heap nalloc alloc_addr alloc_fill trace loads set_heap emit count_alloc];
    fold lb; [| done | by rewrite lookup_insert_ne].
  rewrite bind_run, band_loop_iter by done.
  set (L0 := alloc_fill s (nalloc s)
               <$> seq 0 (Z.to_nat (LVGL_WIDTH * rows * sizeof_lv_color16_t / 2))).
  assert (Forall (λ n, 0 ≤ n ≤ 65535 ∧ (n + 8) * 456 ≤ Z.of_nat (length C))
            (band_starts a)) as Hns.
  { apply Forall_forall. intros n Hn%band_starts_bounds.
    destruct Hab as (_ & _ & Hh).
    unfold C. rewrite length_rgb565_swap.
    unfold cols, LVGL_WIDTH in Hrows. lia. }
  rewrite (iter_bands_run fuel a px lb C (band_starts a) Hfuel Hne
             ltac:(by destruct Hab) Hns L0);
    cbn [heap nalloc alloc_addr alloc_fill trace loads set_heap emit count_alloc].
  - rewrite bind_run. unfold free at 1.
    cbn [heap nalloc alloc_addr alloc_fill trace loads emit set_heap].
    destruct (Z.eqb_spec lb 0); [done|].
    rewrite lookup_insert_eq. unfold lv_disp_flush_ready.
    cbn [heap nalloc alloc_addr alloc_fill trace loads emit set_heap].
    unfold emit, set_heap, count_alloc.
    cbn [heap nalloc alloc_addr alloc_fill trace loads].
    rewrite delete_insert_eq, delete_insert_id
      by (by rewrite lookup_insert_ne).
    rewrite <- !app_assoc. reflexivity.
  - rewrite lookup_insert_ne by done. by rewrite lookup_insert_eq.
  - by rewrite lookup_insert_eq.
  - unfold L0. by rewrite length_fmap, length_seq.
Qed.

(** A region of more than 65529 rows: the callback does not return. *)
Lemma flush_cb_tall_region_never_returns (fuel : nat) (a : lv_area_t)
    (px : Z) (s s' : state) :
  is_int32 (y2 a - y1 a) → 65528 < y2 a - y1 a →
  flush_cb fuel a px s ≠ Ok () s'.
Proof.
  intros Hh Htall. unfold flush_cb.
  rewrite bind_run. unfold esp_logi at 1. rewrite bind_run.
  destruct (lv_draw_sw_rgb565_swap _ _ _) as [[] s2|]; [|discriminate].
  rewrite bind_run.
  destruct (heap_caps_aligned_alloc _ _ s2) as [lb s3|]; [|discriminate].
  rewrite bind_run, to_int32_id by done.
  pose proof (band_loop_wraps fuel (y2 a - y1 a) (flush_band fuel a px lb)
                Htall 0 s3 ltac:(lia) eq_refl) as Hw.
  destruct (for_loop fuel to_uint16 0 _ rows _ s3) as [[] s4|]; [|discriminate].
  by destruct (Hw s4).
Qed.

(** ** Invariants of arbitrary runs *)

Lemma bind_final {A B} (I : state → Prop) (m : M A) (k : A → M B) :
  (∀ s, I s → I (final (m s))) →
  (∀ a s, I s → I (final (k a s))) →
  ∀ s, I s → I (final ((m ≫= k) s)).
Proof.
  intros Hm Hk s Hs. rewrite bind_run.
  specialize (Hm s Hs). destruct (m s) as [a s1|e s1]; simpl in *; [|done].
  by apply Hk.
Qed.

Lemma for_loop_final (I : state → Prop) (fuel : nat) (conv : Z → Z)
    (i bound step : Z) (body : Z → M unit) :
  (∀ j s, I s → I (final (body j s))) →
  ∀ s, I s → I (final (for_loop fuel conv i bound step body s)).
Proof.
  intros Hbody. revert i.
  induction fuel as [|fuel IH]; intros i s Hs; simpl; [done|].
  destruct (i <? bound); [|done].
  apply bind_final; [apply Hbody | intros _; apply IH | done].
Qed.

Lemma same_live_refl h : same_live h h.
Proof. by intros p. Qed.

Lemma same_live_trans h1 h2 h3 :
  same_live h1 h2 → same_live h2 h3 → same_live h1 h3.
Proof. intros H12 H23 p. specialize (H12 p). specialize (H23 p). tauto. Qed.

Lemma same_live_insert (h : gmap Z (list Z)) (p : Z) (l l' : list Z) :
  h !! p = Some l → same_live (<[p := l']> h) h.
Proof.
  intros Hp q. rewrite lookup_insert_None. split; [tauto|].
  intros Hq. split; [done|]. congruence.
Qed.

Lemma load_band_inv lb T h p i s :
  band_inv lb T h s → band_inv lb T h (final (load p i s)).
Proof.
  intros Hs. unfold load.
  destruct (heap s !! p) as [l|]; [destruct (sample_at l i)|]; exact Hs.
Qed.

Lemma store_band_inv lb T h p i v s :
  band_inv lb T h s → band_inv lb T h (final (store p i v s)).
Proof.
  intros Hs. unfold store.
  destruct (heap s !! p) as [l|] eqn:Hp; [destruct (sample_at l i)|];
    try exact Hs.
  destruct Hs as [Ht Hl]. split; [exact Ht|]. simpl.
  eapply same_live_trans; [by eapply same_live_insert | done].
Qed.

Lemma draw_band_inv lb T h xs ys xe ye s :
  band_inv lb T h s →
  band_inv lb T h (final (esp_lcd_panel_draw_bitmap xs ys xe ye lb s)).
Proof.
  intros Hs. unfold esp_lcd_panel_draw_bitmap.
  destruct (heap s !! lb) as [l|]; [|exact Hs].
  destruct (_ <=? _); [|exact Hs].
  destruct Hs as [(ds & Ht & Hds) Hl]. split; [|exact Hl]. simpl.
  exists (ds ++ [EvDrawBitmap xs ys xe ye lb
                   (take (Z.to_nat ((xe - xs) * (ye - ys))) l)]).
  split; [by rewrite Ht, app_assoc|].
  apply Forall_app. split; [done|]. by constructor.
Qed.

Lemma flush_band_inv lb T h fuel a cm n s :
  band_inv lb T h s → band_inv lb T h (final (flush_band fuel a cm lb n s)).
Proof.
  revert s. unfold flush_band, copy_band.
  apply bind_final; [|intros _ s; apply draw_band_inv].
  apply for_loop_final. intros x.
  apply for_loop_final. intros y.
  apply bind_final; [intros s; apply load_band_inv|].
  intros v s. apply store_band_inv.
Qed.

(** What the allocator can do. *)
Lemma heap_caps_aligned_alloc_cases (alignment size : Z) (s : state) :
  let p := alloc_addr s (nalloc s) in
  match heap_caps_aligned_alloc alignment size s with
  | Ok q s' =>
      q = p ∧ trace s' = trace s ++ [EvAlloc alignment size p] ∧
      ((p = 0 ∧ heap s' = heap s) ∨
       (p ≠ 0 ∧ heap s !! p = None ∧ ∃ l, heap s' = <[p := l]> (heap s)))
  | Err _ s' => trace s' = trace s ++ [EvAlloc alignment size p]
  end.
Proof.
  unfold heap_caps_aligned_alloc. simpl.
  destruct (Z.eqb_spec (alloc_addr s (nalloc s)) 0) as [Hz | Hnz].
  - rewrite Hz. split_and!; [done.. |]. by left.
  - destruct (heap s !! alloc_addr s (nalloc s)) eqn:Hp; [done|].
    split_and!; [done.. |]. right. split_and!; [done.. |]. by eexists.
Qed.

(** What the normalizer can do. *)
Lemma lv_draw_sw_rgb565_swap_final (buf cnt : Z) (s : state) :
  let s' := final (lv_draw_sw_rgb565_swap buf cnt s) in
  trace s' = trace s ++ [EvSwap buf cnt] ∧ same_live (heap s') (heap s) ∧
  nalloc s' = nalloc s ∧ alloc_addr s' = alloc_addr s.
Proof.
  unfold lv_draw_sw_rgb565_swap.
  destruct (cnt =? 0); [by split_and!; try apply same_live_refl|].
  destruct (heap s !! buf) as [l|] eqn:Hbuf;
    [|by split_and!; try apply same_live_refl].
  destruct (_ <=? _); [|by split_and!; try apply same_live_refl].
  simpl. split_and!; [done | by eapply same_live_insert | done | done].
Qed.

Lemma no_draws_from (lb : Z) (evs : list event) :
  Forall (λ e, draw_pointer e = None) evs → draws_from lb evs.
Proof.
  intros H. eapply Forall_impl; [exact H|]. simpl. intros e He p. congruence.
Qed.

(** The footprint of any run of [flush_cb], whether it returns or not: the
    scratch tile is requested once, every bitmap write is handed the
    allocator's answer, and a run that returns has freed the tile and left
    the same objects live. *)
Lemma flush_cb_footprint (fuel : nat) (a : lv_area_t) (px : Z) (s : state) :
  let lb := alloc_addr s (nalloc s) in
  match flush_cb fuel a px s with
  | Ok _ s' =>
      ∃ ds, trace s' = trace s
                       ++ [EvLogI (LogFlushing a); EvSwap px (swap_count a);
                           EvAlloc 64 7296 lb]
                       ++ ds ++ [EvFree lb; EvFlushReady] ∧
            Forall (λ e, draw_pointer e = Some lb) ds ∧
            (lb = 0 ∨ heap s !! lb = None) ∧
            same_live (heap s') (heap s)
  | Err _ s' =>
      ∃ evs, trace s' = trace s ++ evs ∧ draws_from lb evs ∧
             ((lb = 0 ∨ heap s !! lb = None) ∨
              Forall (λ e, draw_pointer e = None) evs)
  end.
Proof.
  intros lb. unfold flush_cb. fold (swap_count a).
  rewrite bind_run. unfold esp_logi at 1. rewrite bind_run.
  set (s1 := emit (EvLogI (LogFlushing a)) s).
  pose proof (lv_draw_sw_rgb565_swap_final px (swap_count a) s1)
    as (Ht2 & Hl2 & Hn2 & Ha2).
  assert (Forall (λ e, draw_pointer e = None)
            [EvLogI (LogFlushing a); EvSwap px (swap_count a)])
    as Hpre2 by (repeat constructor; done).
  destruct (lv_draw_sw_rgb565_swap px (swap_count a) s1) as [[] s2|e s2];
    simpl in Ht2, Hl2, Hn2, Ha2.
  2:{ exists [EvLogI (LogFlushing a); EvSwap px (swap_count a)].
      split_and!; [by rewrite Ht2; unfold s1; simpl; rewrite <- app_assoc
                  | by apply no_draws_from | by right]. }
  rewrite bind_run.
  pose proof (heap_caps_aligned_alloc_cases 64
                (LVGL_WIDTH * rows * sizeof_lv_color16_t) s2) as Hal.
  simpl in Hal. rewrite Hn2, Ha2 in Hal. simpl in Hal. fold lb in Hal.
  assert (Forall (λ e, draw_pointer e = None)
            [EvLogI (LogFlushing a); EvSwap px (swap_count a);
             EvAlloc 64 7296 lb])
    as Hpre3 by (repeat constructor; done).
  destruct (heap_caps_aligned_alloc 64 _ s2) as [q s3|e s3].
  2:{ exists [EvLogI (LogFlushing a); EvSwap px (swap_count a);
              EvAlloc 64 7296 lb].
      split_and!; [| by apply no_draws_from | by right].
      rewrite Hal, Ht2. unfold s1; simpl. by rewrite <- !app_assoc. }
  destruct Hal as (-> & Ht3 & Hh3).
  assert (trace s3 = trace s ++ [EvLogI (LogFlushing a);
            EvSwap px (swap_count a); EvAlloc 64 7296 lb]) as Ht3'.
  { rewrite Ht3, Ht2. unfold s1; simpl. by rewrite <- !app_assoc. }
  assert (lb = 0 ∨ heap s !! lb = None) as Hlb.
  { destruct Hh3 as [[? _] | (_ & Hf & _)]; [by left | right].
    apply Hl2 in Hf. exact Hf. }
  rewrite bind_run.
  pose proof (for_loop_final (band_inv lb (trace s3) (heap s3)) fuel to_uint16
                0 (to_int32 (y2 a - y1 a)) rows
                (flush_band fuel a px lb)
                (λ n s', flush_band_inv lb _ _ fuel a px n s') s3) as Hloop.
  specialize (Hloop ltac:(split; [exists []; by rewrite app_nil_r
                                 | apply same_live_refl])).
  destruct (for_loop fuel to_uint16 0 _ rows _ s3) as [[] s4|e s4];
    simpl in Hloop; destruct Hloop as [(ds & Ht4 & Hds) Hl4].
  2:{ exists ([EvLogI (LogFlushing a); EvSwap px (swap_count a);
               EvAlloc 64 7296 lb] ++ ds).
      split_and!; [by rewrite Ht4, Ht3', <- app_assoc | | by left].
      apply Forall_app. split; [by apply no_draws_from|].
      eapply Forall_impl; [exact Hds|]. simpl. intros e' He' p. congruence. }
  rewrite bind_run. unfold free at 1.
  assert (same_live (heap s3) (heap s) ∨
          (lb ≠ 0 ∧ ∃ l, heap s3 = <[lb := l]> (heap s2))) as Hs3.
  { destruct Hh3 as [[_ ->] | (Hnz & _ & l & ->)]; [by left | right; eauto]. }
  destruct (Z.eqb_spec lb 0) as [Hz | Hnz].
  - unfold lv_disp_flush_ready. exists ds.
    split_and!; [| done | done |].
    + simpl. rewrite Ht4, Ht3'. by rewrite <- !app_assoc.
    + simpl. destruct Hs3 as [Hs3 | [? _]]; [|done].
      eapply same_live_trans; [exact Hl4 | exact Hs3].
  - destruct (heap s4 !! lb) as [l4|] eqn:Hl4lb.
    + unfold lv_disp_flush_ready. exists ds.
      split_and!; [| done | done |].
      * simpl. rewrite Ht4, Ht3'. by rewrite <- !app_assoc.
      * simpl. destruct Hlb as [? | Hfresh]; [done|].
        destruct Hh3 as [[? _] | (_ & Hf2 & l & Hh3)]; [done|].
        intros p. rewrite lookup_delete_None.
        destruct (decide (lb = p)) as [<- | Hne]; [tauto|].
        rewrite (Hl4 p), Hh3, lookup_insert_None, (Hl2 p).
        unfold s1; simpl. tauto.
    + exists ([EvLogI (LogFlushing a); EvSwap px (swap_count a);
               EvAlloc 64 7296 lb] ++ ds ++ [EvFree lb]).
      split_and!; [| | by left].
      * simpl. rewrite Ht4, Ht3'. by rewrite <- !app_assoc.
      * apply Forall_app. split; [by apply no_draws_from|].
        apply Forall_app. split; [| by repeat constructor].
        eapply Forall_impl; [exact Hds|]. simpl. intros e' He' p. congruence.
Qed.

(** ** The pixel buffers across render/flush cycles *)

Lemma same_live_is_Some (h1 h2 : gmap Z (list Z)) (p : Z) :
  same_live h1 h2 → is_Some (h2 !! p) → is_Some (h1 !! p).
Proof.
  intros Hl Hp. specialize (Hl p).
  destruct (h1 !! p) eqn:H1; [by eexists|].
  destruct Hp as [l Hp]. rewrite (proj1 Hl eq_refl) in Hp. done.
Qed.

Lemma lv_render_final (buf : Z) (pixels : list Z) (s : state) :
  let s' := final (lv_render buf pixels s) in
  trace s' = trace s ∧ same_live (heap s') (heap s).
Proof.
  unfold lv_render.
  destruct (heap s !! buf) as [l|] eqn:Hbuf;
    [|split; [done | apply same_live_refl]].
  destruct (_ <=? _)%nat; [|split; [done | apply same_live_refl]].
  simpl. split; [done | by eapply same_live_insert].
Qed.

Lemma fresh_avoids_live (h : gmap Z (list Z)) (lb b : Z) :
  lb = 0 ∨ h !! lb = None → b ≠ 0 → is_Some (h !! b) → lb ≠ b.
Proof. intros [-> | Hf] Hb [l Hl]; [done|]. intros ->. congruence. Qed.

Lemma draws_avoid_app (b1 b2 : Z) (t evs : list event) :
  draws_avoid b1 b2 t → draws_avoid b1 b2 evs → draws_avoid b1 b2 (t ++ evs).
Proof. intros. by apply Forall_app. Qed.

Lemma draws_from_avoid (b1 b2 lb : Z) (evs : list event) :
  lb ≠ b1 → lb ≠ b2 → draws_from lb evs → draws_avoid b1 b2 evs.
Proof.
  intros H1 H2 H. eapply Forall_impl; [exact H|]. simpl.
  intros e He p Hp. by rewrite (He p Hp).
Qed.

Lemma no_draws_avoid (b1 b2 : Z) (evs : list event) :
  Forall (λ e, draw_pointer e = None) evs → draws_avoid b1 b2 evs.
Proof.
  intros H. eapply Forall_impl; [exact H|]. simpl. intros e He p. congruence.
Qed.

Lemma flush_cb_buffers_inv (b1 b2 : Z) (fuel : nat) (a : lv_area_t) (px : Z)
    (s : state) :
  buffers_inv b1 b2 s →
  match flush_cb fuel a px s with
  | Ok _ s' => buffers_inv b1 b2 s'
  | Err _ s' => draws_avoid b1 b2 (trace s')
  end.
Proof.
  intros (Hb1 & Hb2 & Hl1 & Hl2 & Hd).
  pose proof (flush_cb_footprint fuel a px s) as Hfp. simpl in Hfp.
  destruct (flush_cb fuel a px s) as [[] s'|e s'].
  - destruct Hfp as (ds & Ht & Hds & Hlb & Hlive).
    pose proof (fresh_avoids_live _ _ _ Hlb Hb1 Hl1).
    pose proof (fresh_avoids_live _ _ _ Hlb Hb2 Hl2).
    split_and!; [done | done | by eapply same_live_is_Some
                | by eapply same_live_is_Some |].
    rewrite Ht. apply draws_avoid_app; [done|].
    do 3 (constructor; [done|]).
    apply draws_avoid_app; [|by apply no_draws_avoid; repeat constructor].
    eapply draws_from_avoid; [done | done |].
    eapply Forall_impl; [exact Hds|]. simpl. intros e He p. congruence.
  - destruct Hfp as (evs & Ht & Hfrom & [Hlb | Hnone]).
    + pose proof (fresh_avoids_live _ _ _ Hlb Hb1 Hl1).
      pose proof (fresh_avoids_live _ _ _ Hlb Hb2 Hl2).
      rewrite Ht. apply draws_avoid_app; [done|].
      by eapply draws_from_avoid.
    + rewrite Ht. apply draws_avoid_app; [done | by apply no_draws_avoid].
Qed.

Lemma render_flush_cycle_buffers_inv (b1 b2 : Z) (fuel : nat)
    (bufs : Z * Z) (c : cycle) (s : state) :
  buffers_inv b1 b2 s →
  match render_flush_cycle fuel bufs c s with
  | Ok _ s' => buffers_inv b1 b2 s'
  | Err _ s' => draws_avoid b1 b2 (trace s')
  end.
Proof.
  intros (Hb1 & Hb2 & Hl1 & Hl2 & Hd).
  unfold render_flush_cycle. rewrite bind_run.
  pose proof (lv_render_final (held_buffer bufs c) (c_pixels c) s) as [Ht Hl].
  destruct (lv_render _ _ s) as [[] s1|e s1]; simpl in Ht, Hl.
  - apply flush_cb_buffers_inv.
    split_and!; [done | done | by eapply same_live_is_Some
                | by eapply same_live_is_Some | by rewrite Ht].
  - by rewrite Ht.
Qed.

Lemma main_loop_buffers_inv (b1 b2 : Z) (fuel : nat) (bufs : Z * Z)
    (script : list cycle) (s : state) :
  buffers_inv b1 b2 s →
  draws_avoid b1 b2 (trace (final (main_loop fuel bufs script s))).
Proof.
  revert s. induction script as [|c script IH]; intros s Hs; simpl.
  - by destruct Hs as (_ & _ & _ & _ & Hd).
  - rewrite bind_run.
    pose proof (render_flush_cycle_buffers_inv b1 b2 fuel bufs c s Hs) as Hc.
    destruct (render_flush_cycle fuel bufs c s) as [[] s1|e s1]; [|done].
    by apply IH.
Qed.

(** Start-up: either both pixel buffers are live, distinct from the null
    pointer, and registered, or the firmware has stopped. *)
Lemma app_main_buffers_cases (s : state) :
  match app_main_buffers s with
  | Ok bufs s' =>
      bufs.1 ≠ 0 ∧ bufs.2 ≠ 0 ∧
      is_Some (heap s' !! bufs.1) ∧ is_Some (heap s' !! bufs.2) ∧
      ∃ evs, trace s' = trace s ++ evs ∧ Forall (λ e, draw_pointer e = None) evs
  | Err _ s' =>
      ∃ evs, trace s' = trace s ++ evs ∧ Forall (λ e, draw_pointer e = None) evs
  end.
Proof.
  unfold app_main_buffers. rewrite bind_run. unfold esp_logi at 1.
  set (sz := LVGL_WIDTH * DRAW_BUF_LINES * 2).
  set (s0 := emit (EvLogI (LogBufferSize sz)) s).
  rewrite bind_run.
  pose proof (heap_caps_aligned_alloc_cases 64 sz s0) as H1. simpl in H1.
  destruct (heap_caps_aligned_alloc 64 sz s0) as [b1 s1|e s1].
  2:{ eexists. split; [rewrite H1; unfold s0; simpl; by rewrite <- app_assoc|].
      repeat constructor; done. }
  destruct H1 as (Hb1 & Ht1 & Hh1).
  rewrite bind_run.
  pose proof (heap_caps_aligned_alloc_cases 64 sz s1) as H2. simpl in H2.
  destruct (heap_caps_aligned_alloc 64 sz s1) as [b2 s2|e s2].
  2:{ eexists. split; [rewrite H2, Ht1; unfold s0; simpl; by rewrite <- !app_assoc|].
      repeat constructor; done. }
  destruct H2 as (Hb2 & Ht2 & Hh2).
  destruct (Z.eqb_spec b1 0) as [Hz1 | Hnz1]; simpl.
  { eexists. split; [rewrite Ht2, Ht1; unfold s0; simpl; by rewrite <- !app_assoc|].
    repeat constructor; done. }
  destruct (Z.eqb_spec b2 0) as [Hz2 | Hnz2]; simpl.
  { eexists. split; [rewrite Ht2, Ht1; unfold s0; simpl; by rewrite <- !app_assoc|].
    repeat constructor; done. }
  rewrite <- Hb1 in Hh1. rewrite <- Hb2 in Hh2.
  destruct Hh1 as [[? _] | (_ & _ & l1 & Hh1)]; [done|].
  destruct Hh2 as [[? _] | (_ & Hf2 & l2 & Hh2)]; [done|].
  split_and!; [done | done | | |].
  - rewrite Hh2, Hh1. apply lookup_insert_is_Some'. right.
    rewrite lookup_insert_eq. by eexists.
  - rewrite Hh2, lookup_insert_eq. by eexists.
  - eexists. split; [rewrite Ht2, Ht1; unfold s0; simpl; by rewrite <- !app_assoc|].
    repeat constructor; done.
Qed.

(** C9.  From power-on, through start-up and any sequence of render/flush
    cycles on the two start-up pixel buffers, whatever the allocator answers
    and whether or not the run is cut short by a fault: no bitmap write is
    handed the buffer that the rendering runtime holds, whichever of the two
    that is. *)
Theorem draw_never_handed_pixel_buffer (addr : nat → Z)
    (fill : nat → nat → Z) (fuel : nat) (script : list cycle) :
  match app_main_buffers (power_on addr fill) with
  | Ok bufs s1 =>
      ∀ e p, e ∈ trace (final (main_loop fuel bufs script s1)) →
             draw_pointer e = Some p →
             ∀ c : cycle, p ≠ held_buffer bufs c
  | Err _ s1 => ∀ e, e ∈ trace s1 → draw_pointer e = None
  end.
Proof.
  pose proof (app_main_buffers_cases (power_on addr fill)) as Hst.
  destruct (app_main_buffers (power_on addr fill)) as [[b1 b2] s1|f s1];
    simpl in Hst.
  - destruct Hst as (Hb1 & Hb2 & Hl1 & Hl2 & evs & Ht & Hevs).
    intros e p He Hp c.
    assert (buffers_inv b1 b2 s1) as Hinv.
    { split_and!; [done.. |]. rewrite Ht. by apply no_draws_avoid. }
    pose proof (main_loop_buffers_inv b1 b2 fuel (b1, b2) script s1 Hinv) as Hd.
    unfold draws_avoid in Hd. rewrite Forall_forall in Hd.
    destruct (Hd e He p Hp) as [? ?].
    unfold held_buffer. simpl. by destruct (c_first c).
  - destruct Hst as (evs & Ht & Hevs). simpl in Ht.
    intros e He. rewrite Ht in He. rewrite Forall_forall in Hevs. by apply Hevs.
Qed.

(** Start-up when both allocations succeed. *)
Lemma app_main_buffers_run (addr : nat → Z) (fill : nat → nat → Z) :
  addr 0%nat ≠ 0 → addr 1%nat ≠ 0 → addr 0%nat ≠ addr 1%nat →
  app_main_buffers (power_on addr fill)
  = Ok (addr 0%nat, addr 1%nat)
      (mk_state
         (<[addr 1%nat := fill 1%nat <$> seq 0 (Z.to_nat (63840 / 2))]>
            (<[addr 0%nat := fill 0%nat <$> seq 0 (Z.to_nat (63840 / 2))]> ∅))
         2 addr fill
         [EvLogI (LogBufferSize 63840); EvAlloc 64 63840 (addr 0%nat);
          EvAlloc 64 63840 (addr 1%nat);
          EvSetBuffers (addr 0%nat) (addr 1%nat) 63840]
         []).
Proof.
  intros Hnz1 Hnz2 Hne. unfold app_main_buffers, power_on.
  rewrite bind_run. unfold esp_logi at 1. rewrite bind_run.
  rewrite heap_caps_aligned_alloc_run;
    cbn [nalloc alloc_addr alloc_fill heap emit count_alloc set_heap trace loads];
    [| done | apply lookup_empty].
  rewrite bind_run.
  rewrite heap_caps_aligned_alloc_run;
    cbn [nalloc alloc_addr alloc_fill heap emit count_alloc set_heap trace loads];
    [| done | by rewrite lookup_insert_ne].
  destruct (Z.eqb_spec (addr 0%nat) 0); [done|].
  destruct (Z.eqb_spec (addr 1%nat) 0); [done|].
  reflexivity.
Qed.

(** A run in which bitmap writes do occur: start-up, then one cycle on the
    first pixel buffer.  The write is handed the third object that the
    allocator gave out. *)
Lemma one_cycle_draws_scratch_tile (addr : nat → Z) (fill : nat → nat → Z) :
  addr 0%nat ≠ 0 → addr 1%nat ≠ 0 → addr 2%nat ≠ 0 →
  addr 0%nat ≠ addr 1%nat → addr 2%nat ≠ addr 0%nat →
  addr 2%nat ≠ addr 1%nat →
  ∃ s', app_main 457 [mk_cycle (mk_area 0 0 455 7) true []]
          (power_on addr fill) = Ok () s' ∧
        omap draw_pointer (trace s') = [addr 2%nat].
Proof.
  intros Hnz0 Hnz1 Hnz2 H01 H20 H21.
  unfold app_main. rewrite bind_run, app_main_buffers_run by done.
  cbn [main_loop]. rewrite bind_run. unfold render_flush_cycle.
  rewrite bind_run. unfold held_buffer. cbn [c_first c_pixels c_area fst snd].
  unfold lv_render at 1. cbn [heap].
  rewrite lookup_insert_ne, lookup_insert_eq by done.
  cbn [length Nat.leb drop app].
  erewrite flush_cb_run.
  - eexists. split; [reflexivity|]. reflexivity.
  - unfold flush_pre. cbn [heap nalloc alloc_addr set_heap].
    split_and!.
    + rewrite lookup_insert_eq. reflexivity.
    + rewrite drop_0, length_fmap, length_seq. vm_compute. discriminate.
    + done.
    + rewrite !lookup_insert_ne by done. apply lookup_empty.
    + unfold area_bounded. cbn [y1 y2]. lia.
    + rewrite drop_0, length_fmap, length_seq. vm_compute. discriminate.
  - lia.
  - vm_compute. lia.
Qed.

Lemma length_ramp (n : Z) : length (ramp n) = Z.to_nat n.
Proof. apply length_range_from. Qed.

(** [flush_pre] at a concrete [one_block] state. *)
Ltac one_block_flush_pre :=
  unfold flush_pre, one_block; cbn [heap nalloc alloc_addr];
  split_and!;
  [ apply lookup_singleton_eq
  | rewrite length_ramp; vm_compute; discriminate
  | lia
  | apply lookup_singleton_ne; lia
  | unfold area_bounded; cbn [y1 y2]; lia
  | rewrite length_ramp; vm_compute; discriminate ].

(** ** The rotated scanline remapper *)

(** C1.  In the band copy of the rotated remapper, for every band starting at
    row offset [n], every column [x] of the remapped width and every row
    offset [y] below [rows = 8], the sample left in the scratch tile at index
    [x * rows + (rows - 1 - y)] is the sample read at index
    [(n + y) * width + x] of the input block; nothing but the scratch tile
    changes. *)
Theorem band_copy_rotates (fuel : nat) (color_map line_buf n : Z)
    (C L : list Z) (s : state) :
  (456 < fuel)%nat → color_map ≠ line_buf → 0 ≤ n ≤ 65535 →
  (n + rows) * LVGL_WIDTH ≤ Z.of_nat (length C) →
  heap s !! color_map = Some C → heap s !! line_buf = Some L →
  length L = Z.to_nat (LVGL_WIDTH * rows) →
  ∃ s' T,
    copy_band fuel color_map line_buf n s = Ok () s' ∧
    heap s' = <[line_buf := T]> (heap s) ∧ trace s' = trace s ∧
    ∀ x y, 0 ≤ x < LVGL_WIDTH → 0 ≤ y < rows →
      ∃ v, sample_at C ((n + y) * LVGL_WIDTH + x) = Some v ∧
           sample_at T (x * rows + (rows - 1 - y)) = Some v.
Proof.
  unfold rows, LVGL_WIDTH. intros Hfuel Hne Hn HC Hcm Hlb HL.
  exists (mk_state (<[line_buf := rotated_band C n]> (heap s))
            (nalloc s) (alloc_addr s) (alloc_fill s) (trace s)
            (loads s ++ band_loads color_map n)), (rotated_band C n).
  split; [by eapply copy_band_run|]. split; [done|]. split; [done|].
  intros x y Hx Hy.
  destruct (sample_at_lt C ((n + y) * 456 + x)) as [v Hv]; [lia|].
  exists v. split; [done|].
  replace (x * 8 + (8 - 1 - y)) with (dst_index x y)
    by (unfold dst_index, rows; lia).
  rewrite rotated_band_sample by (unfold pair_in_band; simpl; lia).
  unfold src_index, cols, LVGL_WIDTH. by rewrite Hv.
Qed.

Lemma band_copy_rotates_witness :
  ∃ s' T,
    copy_band 457 100 200 8 (two_blocks 7296) = Ok () s' ∧
    heap s' = <[200 := T]> (heap (two_blocks 7296)) ∧
    trace s' = trace (two_blocks 7296) ∧
    ∀ x y, 0 ≤ x < LVGL_WIDTH → 0 ≤ y < rows →
      ∃ v, sample_at (ramp 7296) ((8 + y) * LVGL_WIDTH + x) = Some v ∧
           sample_at T (x * rows + (rows - 1 - y)) = Some v.
Proof.
  apply (band_copy_rotates 457 100 200 8 (ramp 7296)
           (replicate 3648 0) (two_blocks 7296)).
  - lia.
  - lia.
  - lia.
  - vm_compute. discriminate.
  - reflexivity.
  - reflexivity.
  - reflexivity.
Defined.

Lemma draw_windows_app (t1 t2 : list event) :
  draw_windows (t1 ++ t2) = draw_windows t1 ++ draw_windows t2.
Proof. apply omap_app. Qed.

Lemma draw_windows_band_draws (y_top lb : Z) (C : list Z) (ns : list Z) :
  draw_windows (band_draw y_top lb C <$> ns) = band_window y_top <$> ns.
Proof.
  induction ns as [|n ns IH]; [done|].
  unfold draw_windows in *. simpl in *. by f_equal.
Qed.

(** The windows and the loads of a flush that runs to completion. *)
Lemma flush_cb_windows (fuel : nat) (a : lv_area_t) (px : Z) (C0 : list Z)
    (s : state) :
  flush_pre a px C0 s → (456 < fuel)%nat → (bands a < fuel)%nat →
  ∃ s', flush_cb fuel a px s = Ok () s' ∧
        draw_windows (trace s')
        = draw_windows (trace s) ++ (band_window (y1 a) <$> band_starts a) ∧
        loads s' = loads s ++ concat (band_loads px <$> band_starts a).
Proof.
  intros Hpre Hf1 Hf2. eexists. split; [by eapply flush_cb_run|].
  split; [|done]. cbn [trace].
  rewrite !draw_windows_app, draw_windows_band_draws.
  change (draw_windows [_; _; _]) with (@nil (Z * Z * Z * Z)).
  change (draw_windows [_; _]) with (@nil (Z * Z * Z * Z)).
  by rewrite app_nil_r.
Qed.

Lemma elem_of_band_starts (a : lv_area_t) (n : Z) :
  n ∈ band_starts a ↔ 0 ≤ n < y2 a - y1 a ∧ n mod 8 = 0.
Proof.
  split.
  - intros Hn%band_starts_bounds. lia.
  - intros [Hn Hmod]. unfold band_starts, rows.
    apply elem_of_range_from. exists (Z.to_nat (n / 8)).
    pose proof (Z.div_mod n 8 ltac:(lia)).
    destruct (bands_spec a) as [Hb _].
    split; lia.
Qed.

Lemma NoDup_range_from (i step : Z) (n : nat) :
  0 < step → NoDup (range_from i step n).
Proof.
  intros Hstep. revert i. induction n as [|n IH]; intros i; simpl.
  - constructor.
  - constructor; [|apply IH].
    intros (k & _ & Hk)%elem_of_range_from. nia.
Qed.

(** C2.  In a flush that runs to completion, the bands start at the row
    offsets [n = 0, 8, 16, ...] below [y2 - y1]; for each of them, in this
    order, exactly one bitmap write is issued, and with
    [native_offset = LCD_H_RES - y1 - n] (LCD_H_RES = 280 is the height of the
    logical panel) its window is [native_offset - rows, native_offset) on the
    rotated axis and [0, LCD_V_RES) on the other. *)
Theorem one_write_per_band (fuel : nat) (a : lv_area_t) (px : Z)
    (C0 : list Z) (s : state) :
  flush_pre a px C0 s → (456 < fuel)%nat → (bands a < fuel)%nat →
  ∃ s', flush_cb fuel a px s = Ok () s' ∧
        draw_windows (trace s')
        = draw_windows (trace s)
          ++ ((λ n, let native_offset := LCD_H_RES - y1 a - n in
                    (native_offset - rows, 0, native_offset, LCD_V_RES))
              <$> band_starts a) ∧
        NoDup (band_starts a) ∧
        ∀ n, n ∈ band_starts a ↔ 0 ≤ n < y2 a - y1 a ∧ n mod rows = 0.
Proof.
  intros Hpre Hf1 Hf2.
  destruct (flush_cb_windows fuel a px C0 s Hpre Hf1 Hf2) as (s' & Hrun & Hw & _).
  exists s'. split_and!; [done | exact Hw | | apply elem_of_band_starts].
  apply NoDup_range_from. unfold rows. lia.
Qed.

Lemma one_write_per_band_witness :
  ∃ s', flush_cb 457 (mk_area 8 16 55 31) 100 (one_block 31920 200) = Ok () s' ∧
        draw_windows (trace s') = [(256, 0, 264, 456); (248, 0, 256, 456)].
Proof.
  destruct (one_write_per_band 457 (mk_area 8 16 55 31) 100
              (ramp 31920) (one_block 31920 200))
    as (s' & Hrun & Hw & _).
  - one_block_flush_pre.
  - lia.
  - vm_compute. lia.
  - exists s'. split; [exact Hrun | exact Hw].
Defined.

(** C7.  End to end: the requested region (10, 3, 50, 9) quantizes to
    (8, 0, 55, 15), and the rotated flush of that region on the 280x456
    panel with bands of 8 rows issues exactly two bitmap writes,
    [ceil ((15 - 0) / 8) = 2], each over the full native height
    [0, LCD_V_RES). *)
Theorem end_to_end_scenario (fuel : nat) (px : Z) (C0 : list Z) (s : state) :
  flush_pre (mk_area 8 0 55 15) px C0 s → (456 < fuel)%nat →
  lvgl_display_rounder_callback (mk_area 10 3 50 9) = mk_area 8 0 55 15 ∧
  ∃ s',
    flush_cb fuel (lvgl_display_rounder_callback (mk_area 10 3 50 9)) px s
    = Ok () s' ∧
    draw_windows (trace s')
    = draw_windows (trace s)
      ++ [(272, 0, 280, LCD_V_RES); (264, 0, 272, LCD_V_RES)].
Proof.
  intros Hpre Hfuel.
  assert (lvgl_display_rounder_callback (mk_area 10 3 50 9) = mk_area 8 0 55 15)
    as -> by reflexivity.
  split; [done|].
  destruct (flush_cb_windows fuel (mk_area 8 0 55 15) px C0 s Hpre Hfuel)
    as (s' & Hrun & Hw & _).
  { change (bands (mk_area 8 0 55 15)) with 2%nat. lia. }
  exists s'. split; [done | exact Hw].
Qed.

Lemma end_to_end_scenario_witness :
  lvgl_display_rounder_callback (mk_area 10 3 50 9) = mk_area 8 0 55 15 ∧
  ∃ s',
    flush_cb 457 (lvgl_display_rounder_callback (mk_area 10 3 50 9)) 100
      (one_block 31920 200)
    = Ok () s' ∧
    draw_windows (trace s') = [(272, 0, 280, 456); (264, 0, 272, 456)].
Proof.
  apply (end_to_end_scenario 457 100 (ramp 31920) (one_block 31920 200)).
  - one_block_flush_pre.
  - lia.
Defined.

Lemma elem_of_concat {A} (x : A) (ls : list (list A)) :
  x ∈ concat ls ↔ ∃ l, l ∈ ls ∧ x ∈ l.
Proof.
  rewrite list_elem_of_In, in_concat.
  split; intros (l & H1 & H2); exists l; by rewrite ?list_elem_of_In in *.
Qed.

(** The loads of the bands of a flush. *)
Lemma elem_of_band_loads (a : lv_area_t) (px p i : Z) :
  (p, i) ∈ concat (band_loads px <$> band_starts a) ↔
  p = px ∧ ∃ n x y, n ∈ band_starts a ∧ pair_in_band (x, y) ∧
                    i = src_index n x y.
Proof.
  rewrite elem_of_concat. split.
  - intros (l & Hl & Hpi).
    apply list_elem_of_fmap in Hl as (n & -> & Hn).
    apply list_elem_of_fmap in Hpi as ([x y] & [= -> ->] & Hxy%elem_of_band_pairs).
    split; [done|]. by exists n, x, y.
  - intros (-> & n & x & y & Hn & Hxy & ->).
    exists (band_loads px n). split.
    + apply list_elem_of_fmap. by exists n.
    + apply list_elem_of_fmap. exists (x, y). by rewrite elem_of_band_pairs.
Qed.

(** C10.  In the rotated flush, a block is read as a block of the full
    logical width: the indices read are [(n + y) * 456 + x] for the band
    starts [n], the rows [y] of a band and every column [x] in [0, 456).
    Two rectangles with the same y1 and y2 give the same loads and the same
    bitmap write windows, whatever their x1 and x2, which reach the
    normalizer's pixel count only. *)
Theorem rotated_flush_ignores_columns (fuel : nat) (a a' : lv_area_t)
    (px : Z) (C0 : list Z) (s : state) :
  y1 a = y1 a' → y2 a = y2 a' →
  flush_pre a px C0 s → flush_pre a' px C0 s →
  (456 < fuel)%nat → (bands a < fuel)%nat →
  ∃ s1 s2 ld,
    flush_cb fuel a px s = Ok () s1 ∧ flush_cb fuel a' px s = Ok () s2 ∧
    loads s1 = loads s ++ ld ∧ loads s2 = loads s ++ ld ∧
    draw_windows (trace s1) = draw_windows (trace s2) ∧
    (∀ p i, (p, i) ∈ ld ↔
            p = px ∧ ∃ n x y, (0 ≤ n < y2 a - y1 a ∧ n mod rows = 0) ∧
                              0 ≤ x < LVGL_WIDTH ∧ 0 ≤ y < rows ∧
                              i = (n + y) * 456 + x) ∧
    EvSwap px (swap_count a) ∈ trace s1 ∧ EvSwap px (swap_count a') ∈ trace s2.
Proof.
  intros Hy1 Hy2 Hpre Hpre' Hf1 Hf2.
  assert (band_starts a' = band_starts a) as Hbs
    by (unfold band_starts, bands; by rewrite Hy1, Hy2).
  assert (bands a' < fuel)%nat as Hf2'
    by (unfold bands in *; by rewrite <- Hy1, <- Hy2).
  pose proof (flush_cb_run fuel a px C0 s Hpre Hf1 Hf2) as Hrun1.
  pose proof (flush_cb_run fuel a' px C0 s Hpre' Hf1 Hf2') as Hrun2.
  destruct (flush_cb_windows fuel a px C0 s Hpre Hf1 Hf2) as (s1 & Hr1 & Hw1 & Hl1).
  destruct (flush_cb_windows fuel a' px C0 s Hpre' Hf1 Hf2')
    as (s2 & Hr2 & Hw2 & Hl2).
  exists s1, s2, (concat (band_loads px <$> band_starts a)).
  split_and!; [done | done | done | by rewrite Hl2, Hbs
              | by rewrite Hw1, Hw2, Hbs, Hy1 | |  |].
  - intros p i. rewrite elem_of_band_loads.
    unfold pair_in_band, src_index, cols, LVGL_WIDTH, rows. simpl.
    split; intros (-> & n & x & y & Hn & H); (split; [done|]); exists n, x, y.
    + apply elem_of_band_starts in Hn. tauto.
    + rewrite elem_of_band_starts. tauto.
  - rewrite Hr1 in Hrun1. injection Hrun1 as ->. cbn [trace].
    rewrite elem_of_app. right. rewrite elem_of_cons. right.
    rewrite elem_of_cons. by left.
  - rewrite Hr2 in Hrun2. injection Hrun2 as ->. cbn [trace].
    rewrite elem_of_app. right. rewrite elem_of_cons. right.
    rewrite elem_of_cons. by left.
Qed.

Lemma rotated_flush_ignores_columns_witness :
  ∃ s1 s2,
    flush_cb 457 (mk_area 8 16 55 31) 100 (one_block 31920 200) = Ok () s1 ∧
    flush_cb 457 (mk_area 0 16 455 31) 100 (one_block 31920 200) = Ok () s2 ∧
    loads s1 = loads s2 ∧
    draw_windows (trace s1) = draw_windows (trace s2).
Proof.
  destruct (rotated_flush_ignores_columns 457 (mk_area 8 16 55 31)
              (mk_area 0 16 455 31) 100 (ramp 31920) (one_block 31920 200))
    as (s1 & s2 & ld & Hr1 & Hr2 & Hl1 & Hl2 & Hw & _).
  - reflexivity.
  - reflexivity.
  - one_block_flush_pre.
  - one_block_flush_pre.
  - lia.
  - vm_compute. lia.
  - exists s1, s2. split_and!; [done | done | by rewrite Hl1, Hl2 | done].
Defined.

(** C4, as the code has it.  The band copy has no short band and pays no
    regard to the width of the region: every band reads [rows = 8] rows of
    456 samples.  For a region of the display that spans the full logical
    width and whose height is a multiple of 8, flushed from a block that
    holds the samples of the region, with the scratch tile allocated, the
    flush returns and every index read through [px_map] is below the number
    of samples of the region, [(x2 - x1 + 1) * (y2 - y1 + 1)]: no sample is
    read past the last row of the region. *)
Theorem full_bands_read_within_region (fuel : nat) (a : lv_area_t) (px : Z)
    (C0 : list Z) (s : state) :
  area_in_display LVGL_WIDTH LVGL_HEIGHT a →
  x2 a - x1 a + 1 = LVGL_WIDTH →
  (y2 a - y1 a + 1) mod rows = 0 →
  heap s !! px = Some C0 →
  (x2 a - x1 a + 1) * (y2 a - y1 a + 1) ≤ Z.of_nat (length C0) →
  alloc_addr s (nalloc s) ≠ 0 → heap s !! alloc_addr s (nalloc s) = None →
  (456 < fuel)%nat →
  ∃ s' ld, flush_cb fuel a px s = Ok () s' ∧ loads s' = loads s ++ ld ∧
           (∀ p i, (p, i) ∈ ld →
              p = px ∧ 0 ≤ i < (x2 a - x1 a + 1) * (y2 a - y1 a + 1)) ∧
           reads_within_region a ld.
Proof.
  unfold rows, LVGL_WIDTH, LVGL_HEIGHT.
  intros (A1 & A2 & A3 & A4 & A5 & A6) Hw Hmod Hpx Hlen Hnz Hfresh Hf1.
  assert (8 * Z.of_nat (bands a) = y2 a - y1 a + 1) as Hb.
  { unfold bands.
    pose proof (Z.div_mod (y2 a - y1 a + 1) 8 ltac:(lia)) as Hdm.
    rewrite Hmod, Z.add_0_r in Hdm.
    replace (y2 a - y1 a + 7) with (6 + (y2 a - y1 a + 1) / 8 * 8) by lia.
    rewrite Z.div_add by lia.
    change (6 / 8) with 0.
    assert (0 ≤ (y2 a - y1 a + 1) / 8) by (apply Z.div_pos; lia).
    lia. }
  assert (flush_pre a px C0 s) as Hpre.
  { unfold flush_pre, swap_count, area_bounded, to_uint32, cols, LVGL_WIDTH.
    rewrite Z.mod_small by nia. split_and!; first [done | lia | nia]. }
  assert (bands a < fuel)%nat as Hf2 by lia.
  destruct (flush_cb_windows fuel a px C0 s Hpre Hf1 Hf2) as (s' & Hrun & _ & Hl).
  exists s', (concat (band_loads px <$> band_starts a)).
  assert (∀ p i, (p, i) ∈ concat (band_loads px <$> band_starts a) →
                 p = px ∧ 0 ≤ i < 456 * (y2 a - y1 a + 1)) as Hin.
  { intros p i (-> & n & x & y & Hn & [Hx Hy] & ->)%elem_of_band_loads.
    apply band_starts_bounds in Hn as (Hn0 & _ & _ & Hn8).
    simpl in Hx, Hy. split; [done|].
    unfold src_index, cols, LVGL_WIDTH. nia. }
  split_and!; [done | done | |].
  - intros p i Hpi. rewrite Hw. by apply Hin.
  - intros p i Hpi. apply Hin in Hpi as [_ Hi].
    unfold cols, LVGL_WIDTH. lia.
Qed.

Lemma full_bands_read_within_region_witness :
  ∃ s' ld,
    flush_cb 457 (mk_area 0 16 455 31) 100 (one_block 31920 200) = Ok () s' ∧
    loads s' = loads (one_block 31920 200) ++ ld ∧
    (∀ p i, (p, i) ∈ ld → p = 100 ∧ 0 ≤ i < (455 - 0 + 1) * (31 - 16 + 1)) ∧
    reads_within_region (mk_area 0 16 455 31) ld.
Proof.
  apply (full_bands_read_within_region 457 (mk_area 0 16 455 31) 100
           (ramp 31920) (one_block 31920 200)).
  - unfold area_in_display, LVGL_WIDTH, LVGL_HEIGHT. simpl. lia.
  - reflexivity.
  - reflexivity.
  - apply lookup_singleton_eq.
  - unfold one_block. cbn [heap x1 x2 y1 y2].
    rewrite length_ramp, Z2Nat.id by lia. lia.
  - unfold one_block. cbn [alloc_addr nalloc]. lia.
  - unfold one_block. cbn [heap alloc_addr nalloc].
    apply lookup_singleton_ne. lia.
  - lia.
Defined.

(** ** The pixel-format normalizer *)

Lemma uint16_high_bits (v n : Z) : is_uint16 v → 16 ≤ n → Z.testbit v n = false.
Proof.
  intros Hv Hn. rewrite <- (Z.mod_small v (2 ^ 16)) by exact Hv.
  rewrite Z.testbit_mod_pow2 by lia.
  destruct (Z.ltb_spec n 16); [lia | reflexivity].
Qed.

Lemma swap16_bits (v n : Z) :
  is_uint16 v → 0 ≤ n →
  Z.testbit (swap16 v) n
  = if n <? 8 then Z.testbit v (n + 8)
    else if n <? 16 then Z.testbit v (n - 8) else false.
Proof.
  intros Hv Hn. unfold swap16, to_uint16.
  rewrite Z.testbit_mod_pow2, Z.lor_spec, Z.shiftl_spec, Z.shiftr_spec by lia.
  destruct (Z.ltb_spec n 8), (Z.ltb_spec n 16); try lia; simpl.
  - by rewrite Z.testbit_neg_r by lia.
  - rewrite (uint16_high_bits v (n + 8)) by (done || lia).
    apply orb_false_r.
Qed.

Lemma swap16_uint16 (v : Z) : is_uint16 (swap16 v).
Proof. unfold swap16, to_uint16, is_uint16. apply Z.mod_pos_bound. lia. Qed.

Lemma swap16_involutive (v : Z) : is_uint16 v → swap16 (swap16 v) = v.
Proof.
  intros Hv. apply Z.bits_inj'. intros n Hn.
  rewrite swap16_bits by (apply swap16_uint16 || done).
  destruct (Z.ltb_spec n 8); [|destruct (Z.ltb_spec n 16)].
  - rewrite swap16_bits by (done || lia).
    destruct (Z.ltb_spec (n + 8) 8), (Z.ltb_spec (n + 8) 16); try lia.
    f_equal. lia.
  - rewrite swap16_bits by (done || lia).
    destruct (Z.ltb_spec (n - 8) 8); [|lia]. f_equal. lia.
  - by rewrite uint16_high_bits.
Qed.

(** The low byte of the result is the high byte of the sample, and the high
    byte of the result its low byte. *)
Lemma swap16_bytes (v : Z) :
  is_uint16 v →
  lo_byte (swap16 v) = hi_byte v ∧ hi_byte (swap16 v) = lo_byte v.
Proof.
  intros Hv. unfold lo_byte, hi_byte. change 255 with (Z.ones 8).
  split; apply Z.bits_inj'; intros n Hn;
    rewrite !Z.land_spec, !Z.testbit_ones_nonneg, ?Z.shiftr_spec by lia;
    rewrite swap16_bits by (done || lia);
    destruct (Z.ltb_spec n 8); rewrite ?andb_false_r; try reflexivity.
  destruct (Z.ltb_spec (n + 8) 8), (Z.ltb_spec (n + 8) 16); try lia.
  do 2 f_equal. lia.
Qed.

Lemma fmap_swap16_involutive (P : list Z) :
  Forall is_uint16 P → swap16 <$> (swap16 <$> P) = P.
Proof.
  induction 1 as [|v P Hv HP IH]; [done|].
  rewrite !fmap_cons, swap16_involutive by done. by f_equal.
Qed.

Lemma rgb565_swap_block (P rest : list Z) :
  rgb565_swap (P ++ rest) (length P) = (swap16 <$> P) ++ rest.
Proof. unfold rgb565_swap. by rewrite take_app_length, drop_app_length. Qed.

(** C8.  For every pixel block [P] of 16-bit samples (an even number of
    bytes), lying at the start of the object at [buf]: the normalizer applied
    twice restores the block; applied once it exchanges the two bytes of
    every sample of the block, in place, and changes nothing else: not the
    samples that follow the block, not another object, and it allocates
    nothing. *)
Theorem normalizer_self_inverse (P rest : list Z) (buf : Z) (s : state) :
  Forall is_uint16 P → heap s !! buf = Some (P ++ rest) →
  rgb565_swap (rgb565_swap (P ++ rest) (length P)) (length P) = P ++ rest ∧
  rgb565_swap (P ++ rest) (length P) = (swap16 <$> P) ++ rest ∧
  Forall (λ v, is_uint16 (swap16 v) ∧
               lo_byte (swap16 v) = hi_byte v ∧
               hi_byte (swap16 v) = lo_byte v) P ∧
  lv_draw_sw_rgb565_swap buf (Z.of_nat (length P)) s
  = Ok () (mk_state (<[buf := (swap16 <$> P) ++ rest]> (heap s))
             (nalloc s) (alloc_addr s) (alloc_fill s)
             (trace s ++ [EvSwap buf (Z.of_nat (length P))]) (loads s)).
Proof.
  intros HP Hbuf. split_and!.
  - rewrite rgb565_swap_block.
    rewrite <- (length_fmap swap16 P).
    by rewrite rgb565_swap_block, fmap_swap16_involutive.
  - apply rgb565_swap_block.
  - eapply Forall_impl; [exact HP|]. simpl. intros v Hv.
    split; [apply swap16_uint16 | by apply swap16_bytes].
  - rewrite (lv_draw_sw_rgb565_swap_run buf _ (P ++ rest)); [| done |].
    + by rewrite Nat2Z.id, rgb565_swap_block.
    + rewrite length_app. lia.
Qed.

Lemma normalizer_self_inverse_witness :
  rgb565_swap (rgb565_swap ([4660; 255; 43981] ++ [7]) 3) 3
  = [4660; 255; 43981] ++ [7] ∧
  rgb565_swap ([4660; 255; 43981] ++ [7]) 3 = [13330; 65280; 52651; 7].
Proof.
  destruct (normalizer_self_inverse [4660; 255; 43981] [7] 100
              (mk_state {[ 100 := [4660; 255; 43981; 7] ]} 0
                 (λ _, 0) (λ _ _, 0) [] []))
    as (H1 & H2 & _).
  - repeat constructor; unfold is_uint16; lia.
  - reflexivity.
  - split; [exact H1 | exact H2].
Defined.

(** ** Where the code departs from the specification *)

(** C4 fails as stated.  The region (0, 0, 455, 9) has 10 rows, not a
    multiple of 8.  The loop runs the bands [n = 0] and [n = 8], and the
    second one reads the rows 8 to 15 in full: index [4560 = 10 * 456], the
    first sample after the region, is read. *)
Lemma short_final_band_reads_past_region :
  (y2 (mk_area 0 0 455 9) - y1 (mk_area 0 0 455 9) + 1) mod rows ≠ 0 ∧
  ¬ reads_within_region (mk_area 0 0 455 9)
      (loads (final (flush_cb 457 (mk_area 0 0 455 9) 100
                       (one_block 31920 200)))).
Proof.
  split; [vm_compute; discriminate|].
  destruct (flush_cb_windows 457 (mk_area 0 0 455 9) 100 (ramp 31920)
              (one_block 31920 200)) as (s' & Hrun & _ & Hl);
    [one_block_flush_pre | lia | vm_compute; lia |].
  rewrite Hrun. cbn [final]. rewrite Hl. intros H.
  specialize (H 100 4560).
  assert ((100, 4560) ∈ loads (one_block 31920 200)
                        ++ concat (band_loads 100
                                     <$> band_starts (mk_area 0 0 455 9)))
    as Hin.
  { apply elem_of_app. right. apply elem_of_band_loads. split; [done|].
    exists 8, 0, 2. split_and!.
    - apply elem_of_band_starts. cbn [y1 y2]. split; [lia | reflexivity].
    - unfold pair_in_band. simpl. lia.
    - reflexivity. }
  specialize (H Hin). unfold cols, LVGL_WIDTH in H. cbn [y1 y2] in H. lia.
Qed.

(** C5 fails as stated.  A flush of one band allocates the scratch tile and
    frees it. *)
Lemma flush_allocates_and_frees :
  ¬ allocation_free
      (trace (final (flush_cb 457 (mk_area 0 0 455 7) 100
                       (one_block 3648 200)))).
Proof.
  rewrite (flush_cb_run 457 (mk_area 0 0 455 7) 100 (ramp 3648)
             (one_block 3648 200));
    [| one_block_flush_pre | lia | vm_compute; lia].
  cbn [final trace]. unfold allocation_free. intros Hnil.
  eapply (filter_nil_not_elem_of _ _ (EvAlloc 64 7296 200)) in Hnil; [|done].
  apply Hnil. cbn [one_block trace alloc_addr nalloc app].
  do 2 apply list_elem_of_further. apply list_elem_of_here.
Qed.

(** C5, as the code has it.  The scratch tile is not allocated at start-up.
    Every flush invocation that returns has requested it once at entry,
    [456 * 8 * 2] bytes aligned to 64, has handed it to every bitmap write,
    and has freed it before signalling that the flush is ready; the objects
    that are live after the invocation are those that were live before it. *)
Theorem scratch_tile_lives_within_flush (fuel : nat) (a : lv_area_t)
    (px : Z) (s s' : state) :
  flush_cb fuel a px s = Ok () s' →
  let lb := alloc_addr s (nalloc s) in
  ∃ ds,
    trace s' = trace s
               ++ [EvLogI (LogFlushing a); EvSwap px (swap_count a);
                   EvAlloc 64 (LVGL_WIDTH * rows * sizeof_lv_color16_t) lb]
               ++ ds ++ [EvFree lb; EvFlushReady] ∧
    Forall (λ e, draw_pointer e = Some lb) ds ∧
    (lb = 0 ∨ heap s !! lb = None ∧ heap s' !! lb = None) ∧
    same_live (heap s') (heap s).
Proof.
  intros Hrun lb.
  pose proof (flush_cb_footprint fuel a px s) as Hfp. simpl in Hfp.
  rewrite Hrun in Hfp. destruct Hfp as (ds & Ht & Hds & Hlb & Hlive).
  exists ds. split_and!; [exact Ht | exact Hds | | exact Hlive].
  destruct Hlb as [Hz | Hnone]; [by left | right].
  split; [done|]. by apply Hlive.
Qed.

Lemma scratch_tile_lives_within_flush_witness :
  let s := one_block 3648 200 in
  let s' := final (flush_cb 457 (mk_area 0 0 455 7) 100 s) in
  ∃ ds,
    trace s' = trace s
               ++ [EvLogI (LogFlushing (mk_area 0 0 455 7)); EvSwap 100 3648;
                   EvAlloc 64 7296 200]
               ++ ds ++ [EvFree 200; EvFlushReady] ∧
    Forall (λ e, draw_pointer e = Some 200) ds ∧
    (200 = 0 ∨ heap s !! 200 = None ∧ heap s' !! 200 = None) ∧
    same_live (heap s') (heap s).
Proof.
  apply (scratch_tile_lives_within_flush 457 (mk_area 0 0 455 7) 100
           (one_block 3648 200)).
  rewrite (flush_cb_run 457 (mk_area 0 0 455 7) 100 (ramp 3648)
             (one_block 3648 200));
    [reflexivity | one_block_flush_pre | lia | vm_compute; lia].
Defined.

(** Start-up handles a failed allocation of a pixel buffer: it logs an error
    and aborts. *)
Lemma app_main_buffers_alloc_failure (addr : nat → Z) (fill : nat → nat → Z) :
  addr 0%nat = 0 ∨ addr 1%nat = 0 →
  ∃ s', app_main_buffers (power_on addr fill) = Err Aborted s' ∧
        trace s' = [EvLogI (LogBufferSize 63840);
                    EvAlloc 64 63840 (addr 0%nat);
                    EvAlloc 64 63840 (addr 1%nat);
                    EvLogE (LogAllocFailed (addr 0%nat) (addr 1%nat));
                    EvAbort].
Proof.
  intros Hfail. unfold app_main_buffers, power_on.
  rewrite bind_run. unfold esp_logi at 1. rewrite bind_run.
  unfold heap_caps_aligned_alloc at 1.
  cbn [nalloc alloc_addr heap emit count_alloc].
  destruct (Z.eqb_spec (addr 0%nat) 0) as [Hz1 | Hnz1].
  - rewrite bind_run. unfold heap_caps_aligned_alloc at 1.
    cbn [nalloc alloc_addr heap emit count_alloc].
    change (0 =? 0) with true. cbn [orb].
    destruct (Z.eqb_spec (addr 1%nat) 0) as [Hz2 | Hnz2].
    + eexists. split; [reflexivity|]. rewrite Hz1, Hz2. reflexivity.
    + rewrite lookup_empty.
      eexists. split; [reflexivity|]. rewrite Hz1. reflexivity.
  - rewrite lookup_empty. rewrite bind_run.
    unfold heap_caps_aligned_alloc at 1.
    cbn [nalloc alloc_addr heap emit count_alloc set_heap].
    destruct Hfail as [? | Hz2]; [done|].
    rewrite Hz2. change (0 =? 0) with true.
    destruct (Z.eqb_spec (addr 0%nat) 0) as [? | _]; [done|]. cbn [orb].
    eexists. split; [reflexivity|]. reflexivity.
Qed.

(** C6, at the failing input.  When the allocator answers the request of
    [flush_cb] with the null pointer, in a flush of at least one band from a
    block that is not empty, the callback neither logs an error nor aborts:
    it goes on into the band copy and stores through the null pointer. *)
Theorem flush_alloc_failure_unchecked (fuel : nat) (a : lv_area_t) (px : Z)
    (C0 : list Z) (s : state) :
  (0 < fuel)%nat →
  alloc_addr s (nalloc s) = 0 → heap s !! 0 = None →
  heap s !! px = Some C0 → 0 < swap_count a ≤ Z.of_nat (length C0) →
  is_int32 (y2 a - y1 a) → 0 < y2 a - y1 a →
  ∃ s', flush_cb fuel a px s = Err (BadPointer 0) s' ∧
        trace s' = trace s ++ [EvLogI (LogFlushing a);
                               EvSwap px (swap_count a); EvAlloc 64 7296 0] ∧
        filter is_diagnostic (trace s') = filter is_diagnostic (trace s).
Proof.
  intros Hfuel Hnull Hh0 Hpx Hcnt Hh Hpos.
  destruct fuel as [|fuel]; [lia|].
  unfold flush_cb. fold (swap_count a).
  rewrite bind_run. unfold esp_logi at 1. rewrite bind_run.
  rewrite (lv_draw_sw_rgb565_swap_run px (swap_count a) C0); [| done | lia].
  rewrite bind_run. unfold heap_caps_aligned_alloc at 1.
  cbn [nalloc alloc_addr heap emit count_alloc set_heap].
  rewrite Hnull. simpl (0 =? 0). cbv iota.
  rewrite bind_run. rewrite to_int32_id by done.
  cbn [for_loop].
  destruct (Z.ltb_spec 0 (y2 a - y1 a)) as [_ | ?]; [|lia].
  rewrite bind_run. unfold flush_band at 1. rewrite bind_run.
  unfold copy_band at 1. cbn [for_loop].
  change (0 <? LVGL_WIDTH) with true. change (0 <? rows) with true. cbv iota.
  rewrite !bind_run.
  assert (px ≠ 0) as Hpx0 by (intros ->; congruence).
  destruct (sample_at_lt (rgb565_swap C0 (Z.to_nat (swap_count a))) 0)
    as [v Hv]; [rewrite length_rgb565_swap; lia|].
  change (to_int32 ((0 + 0) * cols + 0)) with 0.
  change (to_int32 (0 * rows + (rows - 0 - 1))) with 7.
  erewrite load_ok; [| cbn [heap]; apply lookup_insert_eq | exact Hv].
  unfold store. cbn [heap log_load emit count_alloc set_heap].
  rewrite lookup_insert_ne, Hh0 by done.
  eexists. split; [reflexivity|].
  cbn [trace emit count_alloc set_heap log_load]. split.
  - by rewrite <- !app_assoc.
  - rewrite !filter_app. by rewrite !app_nil_r.
Qed.

Lemma flush_alloc_failure_unchecked_witness :
  ∃ s', flush_cb 457 (mk_area 0 0 455 7) 100 (one_block 3648 0)
        = Err (BadPointer 0) s' ∧
        trace s' = [EvLogI (LogFlushing (mk_area 0 0 455 7));
                    EvSwap 100 3648; EvAlloc 64 7296 0] ∧
        filter is_diagnostic (trace s') = [].
Proof.
  apply (flush_alloc_failure_unchecked 457 (mk_area 0 0 455 7) 100
           (ramp 3648) (one_block 3648 0)).
  - lia.
  - reflexivity.
  - reflexivity.
  - reflexivity.
  - rewrite length_ramp. vm_compute. split; [reflexivity | discriminate].
  - unfold is_int32. cbn [y1 y2]. lia.
  - reflexivity.
Defined.

(** * Further properties of the code *)

(** ** The region quantizer *)

Lemma rounder_fields (a : lv_area_t) :
  area_int32 a →
  lvgl_display_rounder_callback a
  = mk_area (8 * (x1 a / 8)) (8 * (y1 a / 8))
      (8 * (x2 a / 8) + 7) (8 * (y2 a / 8) + 7).
Proof.
  intros (Hx1 & Hy1 & Hx2 & Hy2). unfold lvgl_display_rounder_callback.
  by rewrite !round_down_int32, !round_up_int32.
Qed.

Lemma rounder_int32 (a : lv_area_t) :
  area_int32 a → area_int32 (lvgl_display_rounder_callback a).
Proof.
  intros Ha. rewrite rounder_fields by done.
  destruct Ha as (Hx1 & Hy1 & Hx2 & Hy2).
  unfold area_int32, is_int32 in *. simpl.
  pose proof (Z.div_mod (x1 a) 8 ltac:(lia)).
  pose proof (Z.div_mod (y1 a) 8 ltac:(lia)).
  pose proof (Z.div_mod (x2 a) 8 ltac:(lia)).
  pose proof (Z.div_mod (y2 a) 8 ltac:(lia)).
  pose proof (Z.mod_pos_bound (x1 a) 8 ltac:(lia)).
  pose proof (Z.mod_pos_bound (y1 a) 8 ltac:(lia)).
  pose proof (Z.mod_pos_bound (x2 a) 8 ltac:(lia)).
  pose proof (Z.mod_pos_bound (y2 a) 8 ltac:(lia)).
  lia.
Qed.

Lemma div8_round_down (z : Z) : 8 * (z / 8) / 8 = z / 8.
Proof. rewrite Z.mul_comm. apply Z.div_mul. lia. Qed.

Lemma div8_round_up (z : Z) : (8 * (z / 8) + 7) / 8 = z / 8.
Proof.
  rewrite Z.mul_comm, Z.add_comm, Z.div_add by lia.
  change (7 / 8) with 0. lia.
Qed.

Lemma aligned_low (z : Z) : z mod 8 = 0 → 8 * (z / 8) = z.
Proof. intros Hz. pose proof (Z.div_mod z 8 ltac:(lia)). lia. Qed.

Lemma aligned_high (z : Z) : z mod 8 = 7 → 8 * (z / 8) + 7 = z.
Proof. intros Hz. pose proof (Z.div_mod z 8 ltac:(lia)). lia. Qed.

Lemma rounder_aligned (a : lv_area_t) :
  area_int32 a → area_aligned (lvgl_display_rounder_callback a).
Proof.
  intros Ha. rewrite rounder_fields by done. unfold area_aligned. simpl.
  rewrite !(Z.mul_comm 8), !(Z.add_comm _ 7), !Z.mod_add, !Z.mod_mul by lia.
  done.
Qed.

(** X1.  Quantizing twice is quantizing once; the rectangles that the
    quantizer leaves as they are, are exactly those on the update grid. *)
Theorem rounder_idempotent (a : lv_area_t) :
  area_int32 a →
  lvgl_display_rounder_callback (lvgl_display_rounder_callback a)
  = lvgl_display_rounder_callback a ∧
  (lvgl_display_rounder_callback a = a ↔ area_aligned a).
Proof.
  intros Ha. split.
  - rewrite (rounder_fields (lvgl_display_rounder_callback a))
      by by apply rounder_int32.
    rewrite (rounder_fields a) by done. simpl.
    by rewrite !div8_round_down, !div8_round_up.
  - split.
    + intros <-. by apply rounder_aligned.
    + intros (H1 & H2 & H3 & H4). rewrite rounder_fields by done.
      rewrite !aligned_low, !aligned_high by done. by destruct a.
Qed.

Lemma rounder_idempotent_witness :
  lvgl_display_rounder_callback
    (lvgl_display_rounder_callback (mk_area (-3) 3 50 9))
  = lvgl_display_rounder_callback (mk_area (-3) 3 50 9) ∧
  (lvgl_display_rounder_callback (mk_area (-3) 3 50 9) = mk_area (-3) 3 50 9
   ↔ area_aligned (mk_area (-3) 3 50 9)).
Proof.
  apply (rounder_idempotent (mk_area (-3) 3 50 9)).
  unfold area_int32, is_int32; simpl; lia.
Defined.

Lemma rounder_within_aligned (a r : lv_area_t) :
  area_int32 a → area_aligned r → area_within a r →
  area_within (lvgl_display_rounder_callback a) r.
Proof.
  intros Ha (R1 & R2 & R3 & R4) (W1 & W2 & W3 & W4).
  rewrite rounder_fields by done. unfold area_within. simpl.
  pose proof (Z.div_le_mono _ _ 8 ltac:(lia) W1).
  pose proof (Z.div_le_mono _ _ 8 ltac:(lia) W2).
  pose proof (Z.div_le_mono _ _ 8 ltac:(lia) W3).
  pose proof (Z.div_le_mono _ _ 8 ltac:(lia) W4).
  pose proof (aligned_low _ R1). pose proof (aligned_low _ R2).
  pose proof (aligned_high _ R3). pose proof (aligned_high _ R4).
  lia.
Qed.

Lemma rounder_contains (a : lv_area_t) :
  area_int32 a → area_within a (lvgl_display_rounder_callback a).
Proof.
  intros Ha. rewrite rounder_fields by done. unfold area_within. simpl.
  pose proof (Z.div_mod (x1 a) 8 ltac:(lia)).
  pose proof (Z.div_mod (y1 a) 8 ltac:(lia)).
  pose proof (Z.div_mod (x2 a) 8 ltac:(lia)).
  pose proof (Z.div_mod (y2 a) 8 ltac:(lia)).
  pose proof (Z.mod_pos_bound (x1 a) 8 ltac:(lia)).
  pose proof (Z.mod_pos_bound (y1 a) 8 ltac:(lia)).
  pose proof (Z.mod_pos_bound (x2 a) 8 ltac:(lia)).
  pose proof (Z.mod_pos_bound (y2 a) 8 ltac:(lia)).
  lia.
Qed.

(** X2.  The result of the quantizer is the least rectangle on the update
    grid that contains the request: it is on the grid, it contains the
    request, and every rectangle on the grid that contains the request
    contains it. *)
Theorem rounder_least_aligned (a r : lv_area_t) :
  area_int32 a → area_aligned r → area_within a r →
  area_aligned (lvgl_display_rounder_callback a) ∧
  area_within a (lvgl_display_rounder_callback a) ∧
  area_within (lvgl_display_rounder_callback a) r.
Proof.
  intros Ha Hr Hw. split_and!.
  - by apply rounder_aligned.
  - by apply rounder_contains.
  - by apply rounder_within_aligned.
Qed.

Lemma rounder_least_aligned_witness :
  area_aligned (lvgl_display_rounder_callback (mk_area 10 3 50 9)) ∧
  area_within (mk_area 10 3 50 9)
    (lvgl_display_rounder_callback (mk_area 10 3 50 9)) ∧
  area_within (lvgl_display_rounder_callback (mk_area 10 3 50 9))
    (mk_area 0 0 63 23).
Proof.
  apply (rounder_least_aligned (mk_area 10 3 50 9) (mk_area 0 0 63 23)).
  - unfold area_int32, is_int32; simpl; lia.
  - unfold area_aligned; simpl. split_and!; reflexivity.
  - unfold area_within; simpl; lia.
Defined.

(** X18.  The quantizer is monotone for inclusion: a request inside another
    request quantizes to a rectangle inside the other's. *)
Theorem rounder_monotone (a b : lv_area_t) :
  area_int32 a → area_int32 b → area_within a b →
  area_within (lvgl_display_rounder_callback a)
    (lvgl_display_rounder_callback b).
Proof.
  intros Ha Hb Hab.
  apply rounder_within_aligned; [done | by apply rounder_aligned |].
  pose proof (rounder_contains b Hb) as Hbq.
  unfold area_within in *. lia.
Qed.

Lemma rounder_monotone_witness :
  area_within (lvgl_display_rounder_callback (mk_area 10 3 50 9))
    (lvgl_display_rounder_callback (mk_area 7 3 50 16)).
Proof.
  apply (rounder_monotone (mk_area 10 3 50 9) (mk_area 7 3 50 16)).
  - unfold area_int32, is_int32; simpl; lia.
  - unfold area_int32, is_int32; simpl; lia.
  - unfold area_within; simpl; lia.
Defined.

(** X3.  The width and the height of a quantized rectangle are multiples of
    8, and a rectangle that is not empty stays so: both are at least 8. *)
Theorem rounder_sizes (a : lv_area_t) :
  area_int32 a → x1 a ≤ x2 a → y1 a ≤ y2 a →
  let q := lvgl_display_rounder_callback a in
  (x2 q - x1 q + 1) mod 8 = 0 ∧ (y2 q - y1 q + 1) mod 8 = 0 ∧
  8 ≤ x2 q - x1 q + 1 ∧ 8 ≤ y2 q - y1 q + 1.
Proof.
  intros Ha Hx Hy q. subst q. rewrite rounder_fields by done. simpl.
  pose proof (Z.div_le_mono _ _ 8 ltac:(lia) Hx).
  pose proof (Z.div_le_mono _ _ 8 ltac:(lia) Hy).
  replace (8 * (x2 a / 8) + 7 - 8 * (x1 a / 8) + 1)
    with ((x2 a / 8 - x1 a / 8 + 1) * 8) by lia.
  replace (8 * (y2 a / 8) + 7 - 8 * (y1 a / 8) + 1)
    with ((y2 a / 8 - y1 a / 8 + 1) * 8) by lia.
  rewrite !Z.mod_mul by lia. lia.
Qed.

Lemma rounder_sizes_witness :
  let q := lvgl_display_rounder_callback (mk_area 10 3 50 9) in
  (x2 q - x1 q + 1) mod 8 = 0 ∧ (y2 q - y1 q + 1) mod 8 = 0 ∧
  8 ≤ x2 q - x1 q + 1 ∧ 8 ≤ y2 q - y1 q + 1.
Proof.
  apply (rounder_sizes (mk_area 10 3 50 9)).
  - unfold area_int32, is_int32; simpl; lia.
  - simpl; lia.
  - simpl; lia.
Defined.

(** X4.  On a display whose width and height are multiples of 8, as 456 by
    280 and 280 by 456 are, quantizing a rectangle of the display gives a
    rectangle of the display: nothing is left to clamp. *)
Theorem rounder_stays_in_display (w h : Z) (a : lv_area_t) :
  w mod 8 = 0 → h mod 8 = 0 → w ≤ 2 ^ 31 → h ≤ 2 ^ 31 →
  area_in_display w h a →
  area_in_display w h (lvgl_display_rounder_callback a).
Proof.
  intros Hw Hh Hwr Hhr (A1 & A2 & A3 & A4 & A5 & A6).
  assert (area_int32 a) as Ha by (unfold area_int32, is_int32; lia).
  rewrite rounder_fields by done. unfold area_in_display. simpl.
  pose proof (Z.div_le_mono _ _ 8 ltac:(lia) A2).
  pose proof (Z.div_le_mono _ _ 8 ltac:(lia) A5).
  pose proof (aligned_low _ Hw). pose proof (aligned_low _ Hh).
  assert (0 ≤ x1 a / 8) by (apply Z.div_pos; lia).
  assert (0 ≤ y1 a / 8) by (apply Z.div_pos; lia).
  assert (x2 a / 8 < w / 8) by (apply Z.div_lt_upper_bound; lia).
  assert (y2 a / 8 < h / 8) by (apply Z.div_lt_upper_bound; lia).
  lia.
Qed.

Lemma rounder_stays_in_display_witness :
  area_in_display LVGL_WIDTH LVGL_HEIGHT
    (lvgl_display_rounder_callback (mk_area 450 275 455 279)).
Proof.
  apply (rounder_stays_in_display LVGL_WIDTH LVGL_HEIGHT
           (mk_area 450 275 455 279)).
  - reflexivity.
  - reflexivity.
  - unfold LVGL_WIDTH; lia.
  - unfold LVGL_HEIGHT; lia.
  - unfold area_in_display, LVGL_WIDTH, LVGL_HEIGHT; simpl; lia.
Defined.

(** ** The rotated flush: effects and edges *)

(** X5.  A flush that returns has changed the heap in one place only: the
    first [swap_count] samples of the block at [px_map] are left byte-swapped
    (the block is modified through a pointer to const); the scratch tile is
    gone again, every other object is as it was. *)
Theorem flush_cb_heap_effect (fuel : nat) (a : lv_area_t) (px : Z)
    (C0 : list Z) (s : state) :
  flush_pre a px C0 s → (456 < fuel)%nat → (bands a < fuel)%nat →
  ∃ s', flush_cb fuel a px s = Ok () s' ∧
        heap s'
        = <[px := (swap16 <$> take (Z.to_nat (swap_count a)) C0)
                  ++ drop (Z.to_nat (swap_count a)) C0]> (heap s) ∧
        nalloc s' = S (nalloc s).
Proof.
  intros Hpre Hf1 Hf2. eexists. split; [by eapply flush_cb_run|]. done.
Qed.

Lemma flush_cb_heap_effect_witness :
  ∃ s', flush_cb 457 (mk_area 8 16 55 31) 100 (one_block 31920 200) = Ok () s' ∧
        heap s'
        = <[100 := (swap16 <$> take (Z.to_nat 768) (ramp 31920))
                   ++ drop (Z.to_nat 768) (ramp 31920)]>
            (heap (one_block 31920 200)) ∧
        nalloc s' = 1%nat.
Proof.
  apply (flush_cb_heap_effect 457 (mk_area 8 16 55 31) 100 (ramp 31920)
           (one_block 31920 200)).
  - one_block_flush_pre.
  - lia.
  - vm_compute. lia.
Defined.

Lemma flush_pre_with_fill (fill : nat → nat → Z) (a : lv_area_t) (px : Z)
    (C0 : list Z) (s : state) :
  flush_pre a px C0 s → flush_pre a px C0 (with_fill fill s).
Proof. intros H. exact H. Qed.

(** X6.  What a flush hands to the panel does not depend on what the scratch
    tile holds when the allocator returns it: every sample of the tile is
    written before the tile is handed over.  Two runs from the same heap that
    differ in those indeterminate values only give the same trace and the
    same heap.  The block at [px_map] is another matter: its samples in the
    rows that the bands read are handed on as they are, whoever wrote
    them. *)
Theorem flush_cb_ignores_tile_contents (fuel : nat) (a : lv_area_t) (px : Z)
    (C0 : list Z) (s : state) (fill : nat → nat → Z) :
  flush_pre a px C0 s → (456 < fuel)%nat → (bands a < fuel)%nat →
  ∃ s1 s2, flush_cb fuel a px s = Ok () s1 ∧
           flush_cb fuel a px (with_fill fill s) = Ok () s2 ∧
           trace s1 = trace s2 ∧ heap s1 = heap s2 ∧ loads s1 = loads s2.
Proof.
  intros Hpre Hf1 Hf2.
  do 2 eexists. split; [by eapply flush_cb_run|].
  split; [eapply flush_cb_run; [by apply flush_pre_with_fill | done | done]|].
  done.
Qed.

Lemma flush_cb_ignores_tile_contents_witness :
  ∃ s1 s2,
    flush_cb 457 (mk_area 8 16 55 31) 100 (one_block 31920 200) = Ok () s1 ∧
    flush_cb 457 (mk_area 8 16 55 31) 100
      (with_fill (λ k i, Z.of_nat (k + i)) (one_block 31920 200)) = Ok () s2 ∧
    trace s1 = trace s2 ∧ heap s1 = heap s2 ∧ loads s1 = loads s2.
Proof.
  apply (flush_cb_ignores_tile_contents 457 (mk_area 8 16 55 31) 100
           (ramp 31920) (one_block 31920 200)).
  - one_block_flush_pre.
  - lia.
  - vm_compute. lia.
Defined.




(** The band loop with a bound above 65528: every value of the counter is
    below the bound, so the loop runs a band per unit of fuel and stops only
    when the fuel is used up. *)
Lemma band_loop_out_of_fuel (bound : Z) (body : Z → M unit) :
  65528 < bound →
  ∀ (fuel : nat) (i : Z) (s : state), 0 ≤ i < 65536 → i mod 8 = 0 →
    for_loop fuel to_uint16 i bound rows body s
    = (iter ((λ j, to_uint16 (i + rows * Z.of_nat j)) <$> seq 0 fuel) body ;;
       ((λ s', Err OutOfFuel s') : M unit)) s.
Proof.
  intros Hbound. unfold rows.
  induction fuel as [|fuel IH]; intros i s Hi Hmod; [reflexivity|].
  pose proof (Z.div_mod i 8 ltac:(lia)) as Hdm.
  cbn [for_loop seq fmap list_fmap iter].
  destruct (Z.ltb_spec i bound); [|lia].
  replace (to_uint16 (i + 8 * Z.of_nat 0)) with i
    by (unfold to_uint16; rewrite Z.mod_small; lia).
  rewrite !bind_run. destruct (body i s) as [[] s1|e s1]; [|reflexivity].
  rewrite IH.
  - rewrite <- fmap_S_seq, <- list_fmap_compose.
    rewrite (list_fmap_ext _ ((λ j, to_uint16 (i + 8 * Z.of_nat j)) ∘ S)
               (seq 0 fuel)); [reflexivity|].
    intros k j _. unfold compose, to_uint16.
    rewrite Z.add_mod_idemp_l by lia. f_equal. lia.
  - unfold to_uint16. apply Z.mod_pos_bound. lia.
  - unfold to_uint16.
    rewrite Z.mod_mod_divide by (exists 8192; reflexivity).
    rewrite <- Z.add_mod_idemp_l, Hmod by lia. reflexivity.
Qed.

Lemma elem_of_wrapped_band_starts (k : nat) (n : Z) :
  n ∈ wrapped_band_starts k → 0 ≤ n ≤ 65528 ∧ n mod 8 = 0.
Proof.
  unfold wrapped_band_starts, rows, to_uint16.
  intros (j & -> & _)%list_elem_of_fmap.
  pose proof (Z.mod_pos_bound (8 * Z.of_nat j) (2 ^ 16) ltac:(lia)).
  assert ((8 * Z.of_nat j) mod 2 ^ 16 mod 8 = 0) as Hm.
  { rewrite Z.mod_mod_divide by (exists 8192; reflexivity).
    rewrite Z.mul_comm. apply Z.mod_mul. lia. }
  pose proof (Z.div_mod ((8 * Z.of_nat j) mod 2 ^ 16) 8 ltac:(lia)).
  split; [lia | done].
Qed.

(** X8.  The band counter has 16 bits.  For a region with
    [y2 - y1 > 65528] every value it takes is below the bound, and after
    65528 it is 0 again.  Let the block hold the samples to normalize and the
    65536 rows that the bands read, and let the allocator give the scratch
    tile: then nothing but the fuel stops the band loop.  The callback issues
    one bitmap write per unit of fuel, at the band starts
    [wrapped_band_starts fuel], write [j + 8192] being at the band start of
    write [j]; it does not free the scratch tile and does not report the
    flush ready. *)
Theorem flush_cb_tall_region_diverges (fuel : nat) (a : lv_area_t) (px : Z)
    (C0 : list Z) (s : state) :
  heap s !! px = Some C0 →
  swap_count a ≤ Z.of_nat (length C0) →
  65536 * cols ≤ Z.of_nat (length C0) →
  alloc_addr s (nalloc s) ≠ 0 → heap s !! alloc_addr s (nalloc s) = None →
  - 2 ^ 30 ≤ y1 a ≤ 2 ^ 30 → is_int32 (y2 a - y1 a) →
  65528 < y2 a - y1 a →
  (456 < fuel)%nat →
  ∃ s',
    flush_cb fuel a px s = Err OutOfFuel s' ∧
    trace s'
    = trace s
      ++ [EvLogI (LogFlushing a); EvSwap px (swap_count a);
          EvAlloc 64 7296 (alloc_addr s (nalloc s))]
      ++ (band_draw (y1 a) (alloc_addr s (nalloc s))
            (rgb565_swap C0 (Z.to_nat (swap_count a)))
          <$> wrapped_band_starts fuel) ∧
    length (wrapped_band_starts fuel) = fuel ∧
    (∀ j, (j + Z.to_nat 8192 < fuel)%nat →
          wrapped_band_starts fuel !! (j + Z.to_nat 8192)%nat
          = wrapped_band_starts fuel !! j) ∧
    is_Some (heap s' !! alloc_addr s (nalloc s)).
Proof.
  intros Hpx Hcnt Hrows Hnz Hfresh Hy1 Hh Htall Hfuel.
  assert (px ≠ alloc_addr s (nalloc s)) as Hne by (intros ->; congruence).
  set (lb := alloc_addr s (nalloc s)) in *.
  set (C := rgb565_swap C0 (Z.to_nat (swap_count a))).
  assert (flush_cb fuel a px s
          = Err OutOfFuel
              (mk_state
                 (<[lb := foldl (λ _ n, rotated_band C n)
                            (alloc_fill s (nalloc s) <$> seq 0 3648)
                            (wrapped_band_starts fuel)]>
                    (<[lb := alloc_fill s (nalloc s) <$> seq 0 3648]>
                       (<[px := C]> (heap s))))
                 (S (nalloc s)) (alloc_addr s) (alloc_fill s)
                 (trace s
                  ++ [EvLogI (LogFlushing a); EvSwap px (swap_count a);
                      EvAlloc 64 7296 lb]
                  ++ (band_draw (y1 a) lb C <$> wrapped_band_starts fuel))
                 (loads s
                  ++ concat (band_loads px <$> wrapped_band_starts fuel))))
    as Hrun.
  { unfold flush_cb. fold (swap_count a).
    rewrite bind_run. unfold esp_logi at 1.
    rewrite bind_run.
    rewrite (lv_draw_sw_rgb565_swap_run px (swap_count a) C0);
      [| done | pose proof (swap_count_range a); lia].
    fold C. rewrite bind_run.
    rewrite heap_caps_aligned_alloc_run;
      cbn [heap nalloc alloc_addr alloc_fill trace loads set_heap emit
           count_alloc];
      fold lb; [| done | by rewrite lookup_insert_ne].
    rewrite bind_run, to_int32_id by done.
    rewrite (band_loop_out_of_fuel (y2 a - y1 a) _ Htall fuel 0)
      by first [lia | reflexivity].
    rewrite bind_run.
    change ((λ j, to_uint16 (0 + rows * Z.of_nat j)) <$> seq 0 fuel)
      with (wrapped_band_starts fuel).
    change (Z.to_nat (LVGL_WIDTH * rows * sizeof_lv_color16_t / 2))
      with 3648%nat.
    change (LVGL_WIDTH * rows * sizeof_lv_color16_t) with 7296.
    assert (Forall (λ n, 0 ≤ n ≤ 65535 ∧ (n + 8) * 456 ≤ Z.of_nat (length C))
              (wrapped_band_starts fuel)) as Hns.
    { apply Forall_forall. intros n [Hn _]%elem_of_wrapped_band_starts.
      unfold C. rewrite length_rgb565_swap.
      unfold cols, LVGL_WIDTH in Hrows. lia. }
    rewrite (iter_bands_run fuel a px lb C (wrapped_band_starts fuel) Hfuel
               Hne Hy1 Hns (alloc_fill s (nalloc s) <$> seq 0 3648));
      cbn [heap nalloc alloc_addr alloc_fill trace loads set_heap emit
           count_alloc].
    - unfold emit, set_heap, count_alloc.
      cbn [heap nalloc alloc_addr alloc_fill trace loads].
      rewrite <- !app_assoc. reflexivity.
    - rewrite lookup_insert_ne by done. by rewrite lookup_insert_eq.
    - by rewrite lookup_insert_eq.
    - by rewrite length_fmap, length_seq. }
  eexists. split; [exact Hrun|]. cbn [trace heap].
  split_and!.
  - reflexivity.
  - unfold wrapped_band_starts. by rewrite length_fmap, length_seq.
  - intros j Hj. unfold wrapped_band_starts.
    rewrite !list_lookup_fmap, !lookup_seq_lt by lia. cbn [option_map fmap].
    simpl. f_equal. unfold to_uint16, rows.
    replace (8 * Z.of_nat (j + Z.to_nat 8192)) with (8 * Z.of_nat j + 1 * 2 ^ 16)
      by lia.
    apply Z.mod_add. lia.
  - rewrite lookup_insert_eq. by eexists.
Qed.

Lemma flush_cb_tall_region_diverges_witness :
  ∃ s',
    flush_cb (Z.to_nat 8200) (mk_area 0 0 0 65529) 100
      (one_block 29884416 200) = Err OutOfFuel s' ∧
    trace s'
    = trace (one_block 29884416 200)
      ++ [EvLogI (LogFlushing (mk_area 0 0 0 65529));
          EvSwap 100 (swap_count (mk_area 0 0 0 65529));
          EvAlloc 64 7296 200]
      ++ (band_draw 0 200
            (rgb565_swap (ramp 29884416)
               (Z.to_nat (swap_count (mk_area 0 0 0 65529))))
          <$> wrapped_band_starts (Z.to_nat 8200)) ∧
    length (wrapped_band_starts (Z.to_nat 8200)) = Z.to_nat 8200 ∧
    (∀ j, (j + Z.to_nat 8192 < Z.to_nat 8200)%nat →
          wrapped_band_starts (Z.to_nat 8200) !! (j + Z.to_nat 8192)%nat
          = wrapped_band_starts (Z.to_nat 8200) !! j) ∧
    is_Some (heap s' !! 200).
Proof.
  apply (flush_cb_tall_region_diverges (Z.to_nat 8200) (mk_area 0 0 0 65529)
           100 (ramp 29884416) (one_block 29884416 200)).
  - apply lookup_singleton_eq.
  - rewrite length_ramp, Z2Nat.id by lia. vm_compute. discriminate.
  - rewrite length_ramp, Z2Nat.id by lia. vm_compute. discriminate.
  - unfold one_block. cbn [alloc_addr nalloc]. lia.
  - unfold one_block. cbn [heap alloc_addr nalloc].
    apply lookup_singleton_ne. lia.
  - cbn [y1]. lia.
  - unfold is_int32. cbn [y1 y2]. lia.
  - cbn [y1 y2]. lia.
  - lia.
Defined.

(** ** The rotated flush: geometry *)




(** The native columns that the windows of the bands cover. *)
Lemma band_windows_cover (a : lv_area_t) (nx : Z) :
  (∃ w, w ∈ band_window (y1 a) <$> band_starts a ∧ window_has_column nx w)
  ↔ LCD_H_RES - y1 a - 8 * Z.of_nat (bands a) ≤ nx < LCD_H_RES - y1 a.
Proof.
  split.
  - intros (w & (n & -> & Hn)%list_elem_of_fmap & Hnx).
    unfold window_has_column, band_window in Hnx. simpl in Hnx.
    apply band_starts_bounds in Hn. unfold rows in Hnx. lia.
  - intros Hnx. unfold LCD_H_RES in Hnx.
    set (n := 8 * ((279 - y1 a - nx) / 8)).
    pose proof (Z.div_mod (279 - y1 a - nx) 8 ltac:(lia)).
    pose proof (Z.mod_pos_bound (279 - y1 a - nx) 8 ltac:(lia)).
    exists (band_window (y1 a) n). split.
    + apply list_elem_of_fmap. exists n. split; [done|].
      unfold band_starts, rows. apply elem_of_range_from.
      exists (Z.to_nat ((279 - y1 a - nx) / 8)).
      assert (0 ≤ (279 - y1 a - nx) / 8) by (apply Z.div_pos; lia).
      subst n. split; lia.
    + unfold window_has_column, band_window, LCD_H_RES, rows. simpl.
      subst n. lia.
Qed.

(** X10.  The windows of the bands of one flush tile a strip of the panel:
    a native column is in some window exactly when it is one of the
    [8 * bands] columns that end before [LCD_H_RES - y1], and then it is in
    one window only.  Bands neither overlap nor leave a gap. *)
Theorem band_windows_tile (fuel : nat) (a : lv_area_t) (px : Z)
    (C0 : list Z) (s : state) :
  flush_pre a px C0 s → (456 < fuel)%nat → (bands a < fuel)%nat →
  ∃ s' ws,
    flush_cb fuel a px s = Ok () s' ∧
    draw_windows (trace s') = draw_windows (trace s) ++ ws ∧
    (∀ nx, (∃ w, w ∈ ws ∧ window_has_column nx w)
           ↔ LCD_H_RES - y1 a - 8 * Z.of_nat (bands a) ≤ nx
             < LCD_H_RES - y1 a) ∧
    (∀ nx w w', w ∈ ws → w' ∈ ws → window_has_column nx w →
                window_has_column nx w' → w = w').
Proof.
  intros Hpre Hf1 Hf2.
  destruct (flush_cb_windows fuel a px C0 s Hpre Hf1 Hf2) as (s' & Hrun & Hw & _).
  exists s', (band_window (y1 a) <$> band_starts a).
  split_and!; [done | done | |].
  - intros nx. apply band_windows_cover.
  - intros nx w w' (n & -> & Hn)%list_elem_of_fmap
      (n' & -> & Hn')%list_elem_of_fmap Hnx Hnx'.
    unfold window_has_column, band_window in Hnx, Hnx'. simpl in Hnx, Hnx'.
    apply band_starts_bounds in Hn as (_ & Hm & _).
    apply band_starts_bounds in Hn' as (_ & Hm' & _).
    pose proof (Z.div_mod n 8 ltac:(lia)).
    pose proof (Z.div_mod n' 8 ltac:(lia)).
    unfold rows in *. f_equal. lia.
Qed.

Lemma band_windows_tile_witness :
  ∃ s' ws,
    flush_cb 457 (mk_area 8 16 55 31) 100 (one_block 31920 200) = Ok () s' ∧
    draw_windows (trace s')
    = draw_windows (trace (one_block 31920 200)) ++ ws ∧
    (∀ nx, (∃ w, w ∈ ws ∧ window_has_column nx w)
           ↔ LCD_H_RES - 16 - 8 * Z.of_nat (bands (mk_area 8 16 55 31)) ≤ nx
             < LCD_H_RES - 16) ∧
    (∀ nx w w', w ∈ ws → w' ∈ ws → window_has_column nx w →
                window_has_column nx w' → w = w').
Proof.
  apply (band_windows_tile 457 (mk_area 8 16 55 31) 100 (ramp 31920)
           (one_block 31920 200)).
  - one_block_flush_pre.
  - lia.
  - vm_compute. lia.
Defined.

(** X11.  For a region of the 456 by 280 display whose height is a multiple
    of 8, the bitmap writes stay on the panel: every window lies within the
    280 native columns and spans the 456 native rows, and the columns written
    are those of the rows of the region, mirrored:
    [LCD_H_RES - 1 - y2 .. LCD_H_RES - 1 - y1]. *)
Theorem band_windows_on_panel (fuel : nat) (a : lv_area_t) (px : Z)
    (C0 : list Z) (s : state) :
  flush_pre a px C0 s → (456 < fuel)%nat → (bands a < fuel)%nat →
  area_in_display LVGL_WIDTH LVGL_HEIGHT a →
  (y2 a - y1 a + 1) mod 8 = 0 →
  ∃ s' ws,
    flush_cb fuel a px s = Ok () s' ∧
    draw_windows (trace s') = draw_windows (trace s) ++ ws ∧
    Forall (λ w, 0 ≤ w.1.1.1 ∧ w.1.1.1 < w.1.2 ∧ w.1.2 ≤ LCD_H_RES ∧
                 w.1.1.2 = 0 ∧ w.2 = LCD_V_RES) ws ∧
    (∀ nx, (∃ w, w ∈ ws ∧ window_has_column nx w)
           ↔ LCD_H_RES - 1 - y2 a ≤ nx ≤ LCD_H_RES - 1 - y1 a).
Proof.
  intros Hpre Hf1 Hf2 (A1 & A2 & A3 & A4 & A5 & A6) Hmod.
  destruct (flush_cb_windows fuel a px C0 s Hpre Hf1 Hf2)
    as (s' & Hrun & Hw & _).
  pose proof (band_windows_cover a) as Hcover.
  assert (8 * Z.of_nat (bands a) = y2 a - y1 a + 1) as Hb.
  { unfold bands.
    pose proof (Z.div_mod (y2 a - y1 a + 1) 8 ltac:(lia)) as Hdm.
    rewrite Hmod, Z.add_0_r in Hdm.
    replace (y2 a - y1 a + 7) with (6 + (y2 a - y1 a + 1) / 8 * 8) by lia.
    rewrite Z.div_add by lia. change (6 / 8) with 0.
    assert (0 ≤ (y2 a - y1 a + 1) / 8) by (apply Z.div_pos; lia).
    lia. }
  exists s', (band_window (y1 a) <$> band_starts a).
  split_and!; [done | done | |].
  - apply Forall_forall.
    intros w (n & -> & Hn)%list_elem_of_fmap.
    apply band_starts_bounds in Hn.
    unfold band_window, LCD_H_RES, LCD_V_RES, LVGL_HEIGHT, rows in *. simpl.
    lia.
  - intros nx. rewrite Hcover. unfold LCD_H_RES. lia.
Qed.

Lemma band_windows_on_panel_witness :
  ∃ s' ws,
    flush_cb 457 (mk_area 8 16 55 31) 100 (one_block 31920 200) = Ok () s' ∧
    draw_windows (trace s')
    = draw_windows (trace (one_block 31920 200)) ++ ws ∧
    Forall (λ w, 0 ≤ w.1.1.1 ∧ w.1.1.1 < w.1.2 ∧ w.1.2 ≤ LCD_H_RES ∧
                 w.1.1.2 = 0 ∧ w.2 = LCD_V_RES) ws ∧
    (∀ nx, (∃ w, w ∈ ws ∧ window_has_column nx w)
           ↔ LCD_H_RES - 1 - 31 ≤ nx ≤ LCD_H_RES - 1 - 16).
Proof.
  apply (band_windows_on_panel 457 (mk_area 8 16 55 31) 100 (ramp 31920)
           (one_block 31920 200)).
  - one_block_flush_pre.
  - lia.
  - vm_compute. lia.
  - unfold area_in_display, LVGL_WIDTH, LVGL_HEIGHT. simpl. lia.
  - reflexivity.
Defined.

(** ** The rotated flush and the size of the pixel buffers *)

Lemma to_uint32_small z : 0 ≤ z < 2 ^ 32 → to_uint32 z = z.
Proof. unfold to_uint32. intros Hz. by rewrite Z.mod_small. Qed.

(** X12.  The pixel buffers hold [DRAW_BUF_LINES = 70] rows of the logical
    width.  A flush of a region of the display whose height is a multiple of
    8 and at most 64 rows, from a block of that size, returns; it issues one
    bitmap write per 8 rows, and every sample it reads lies inside the
    block. *)
Theorem flush_within_pixel_buffer (fuel : nat) (a : lv_area_t) (px : Z)
    (C0 : list Z) (s : state) :
  area_in_display LVGL_WIDTH LVGL_HEIGHT a →
  (y2 a - y1 a + 1) mod 8 = 0 → y2 a - y1 a + 1 ≤ 64 →
  heap s !! px = Some C0 →
  Z.of_nat (length C0) = LVGL_WIDTH * DRAW_BUF_LINES →
  alloc_addr s (nalloc s) ≠ 0 → heap s !! alloc_addr s (nalloc s) = None →
  (456 < fuel)%nat →
  ∃ s' ld,
    flush_cb fuel a px s = Ok () s' ∧ loads s' = loads s ++ ld ∧
    Forall (λ pi, pi.1 = px ∧ 0 ≤ pi.2 < Z.of_nat (length C0)) ld ∧
    Z.of_nat (length (draw_windows (trace s')))
    = Z.of_nat (length (draw_windows (trace s))) + (y2 a - y1 a + 1) / 8.
Proof.
  unfold LVGL_WIDTH, LVGL_HEIGHT, DRAW_BUF_LINES.
  intros (A1 & A2 & A3 & A4 & A5 & A6) Hmod Hh Hpx Hlen Hnz Hfresh Hfuel.
  assert (8 * Z.of_nat (bands a) = y2 a - y1 a + 1) as Hb.
  { unfold bands.
    pose proof (Z.div_mod (y2 a - y1 a + 1) 8 ltac:(lia)) as Hdm.
    rewrite Hmod, Z.add_0_r in Hdm.
    replace (y2 a - y1 a + 7) with (6 + (y2 a - y1 a + 1) / 8 * 8) by lia.
    rewrite Z.div_add by lia. change (6 / 8) with 0.
    assert (0 ≤ (y2 a - y1 a + 1) / 8) by (apply Z.div_pos; lia).
    lia. }
  assert (flush_pre a px C0 s) as Hpre.
  { unfold flush_pre, area_bounded, swap_count, cols, LVGL_WIDTH.
    rewrite to_uint32_small by nia.
    split_and!; first [done | lia | nia]. }
  assert (bands a < fuel)%nat as Hf2 by lia.
  destruct (flush_cb_windows fuel a px C0 s Hpre Hfuel Hf2)
    as (s' & Hrun & Hw & Hl).
  exists s', (concat (band_loads px <$> band_starts a)).
  split_and!; [done | done | |].
  - apply Forall_forall.
    intros [p i] (-> & n & x & y & Hn & [Hx Hy] & ->)%elem_of_band_loads.
    apply band_starts_bounds in Hn as (Hn0 & _ & _ & Hn8).
    simpl in *. unfold src_index, cols, LVGL_WIDTH. split; [done | nia].
  - rewrite Hw, length_app, length_fmap.
    unfold band_starts. rewrite length_range_from.
    rewrite <- Hb, (Z.mul_comm 8), Z.div_mul by lia. lia.
Qed.

Lemma flush_within_pixel_buffer_witness :
  ∃ s' ld,
    flush_cb 457 (mk_area 8 16 55 31) 100 (one_block 31920 200) = Ok () s' ∧
    loads s' = loads (one_block 31920 200) ++ ld ∧
    Forall (λ pi, pi.1 = 100 ∧ 0 ≤ pi.2 < Z.of_nat (length (ramp 31920))) ld ∧
    Z.of_nat (length (draw_windows (trace s')))
    = Z.of_nat (length (draw_windows (trace (one_block 31920 200))))
      + (31 - 16 + 1) / 8.
Proof.
  apply (flush_within_pixel_buffer 457 (mk_area 8 16 55 31) 100 (ramp 31920)
           (one_block 31920 200)).
  - unfold area_in_display, LVGL_WIDTH, LVGL_HEIGHT. simpl. lia.
  - reflexivity.
  - simpl. lia.
  - apply lookup_singleton_eq.
  - rewrite length_ramp, Z2Nat.id by lia. reflexivity.
  - cbn [one_block alloc_addr nalloc]. lia.
  - cbn [one_block alloc_addr nalloc heap]. apply lookup_singleton_ne. lia.
  - lia.
Defined.

Lemma sample_at_ge (l : list Z) (i : Z) :
  Z.of_nat (length l) ≤ i → sample_at l i = None.
Proof.
  intros Hi. unfold sample_at. destruct (Z.ltb_spec i 0); [done|].
  apply lookup_ge_None_2. lia.
Qed.

(** The copies of a list of pairs whose source samples exist. *)
Lemma iter_copy_pixels_prefix (cm lb n : Z) (C : list Z) (ps : list (Z * Z)) :
  cm ≠ lb → 0 ≤ n ≤ 65535 →
  Forall (λ xy, pair_in_band xy ∧
                src_index n xy.1 xy.2 < Z.of_nat (length C)) ps →
  ∀ (L : list Z) (s : state),
    heap s !! cm = Some C → heap s !! lb = Some L → length L = 3648%nat →
    iter ps (copy_pixel cm lb n) s
    = Ok () (mk_state (<[lb := foldl (put_pixel C n) L ps]> (heap s))
               (nalloc s) (alloc_addr s) (alloc_fill s) (trace s)
               (loads s ++ ((λ xy, (cm, src_index n xy.1 xy.2)) <$> ps))).
Proof.
  intros Hne Hn Hps.
  induction Hps as [|[x y] ps [[Hx Hy] HC] Hps IH]; intros L s Hcm Hlb HL;
    simpl in *.
  - rewrite insert_id by done. rewrite app_nil_r. by destruct s.
  - destruct (sample_at_lt C (src_index n x y)) as [v Hv].
    { unfold src_index, cols, LVGL_WIDTH in *. lia. }
    destruct (sample_at_lt L (dst_index x y)) as [w Hw].
    { unfold dst_index, rows. lia. }
    rewrite bind_run. unfold copy_pixel at 1. simpl.
    rewrite bind_run, src_index_int32, dst_index_int32 by done.
    rewrite (load_ok _ _ _ _ _ Hcm Hv).
    rewrite (store_ok _ _ _ w L) by done.
    rewrite (IH (<[Z.to_nat (dst_index x y) := v]> L)); simpl.
    + rewrite insert_insert_eq, <- app_assoc. simpl.
      replace (put_pixel C n L (x, y))
        with (<[Z.to_nat (dst_index x y) := v]> L); [reflexivity|].
      unfold put_pixel. simpl. by rewrite Hv.
    + by rewrite lookup_insert_ne.
    + by rewrite lookup_insert_eq.
    + by rewrite length_insert.
Qed.

Lemma band_pairs_head :
  ∃ rest, band_pairs
          = [(0, 0); (0, 1); (0, 2); (0, 3); (0, 4); (0, 5)] ++ (0, 6) :: rest.
Proof. eexists. reflexivity. Qed.

(** The band that starts at row 64 of a block of 70 rows: the copy reads
    row 70. *)
Lemma copy_band_reads_row_70 (fuel : nat) (cm lb : Z) (C L : list Z)
    (s : state) :
  (456 < fuel)%nat → cm ≠ lb →
  heap s !! cm = Some C → Z.of_nat (length C) = 31920 →
  heap s !! lb = Some L → length L = 3648%nat →
  ∃ s', copy_band fuel cm lb 64 s = Err (OutOfBounds cm 31920) s' ∧
        trace s' = trace s ∧ is_Some (heap s' !! lb).
Proof.
  intros Hfuel Hne Hcm HC Hlb HL.
  rewrite copy_band_iter by done.
  destruct band_pairs_head as [rest ->].
  rewrite iter_app, bind_run.
  rewrite (iter_copy_pixels_prefix cm lb 64 C _ Hne ltac:(lia)) with (L := L);
    [| | done | done | done].
  2:{ repeat (constructor;
              [unfold pair_in_band, src_index, cols, LVGL_WIDTH; simpl; lia|]).
      constructor. }
  cbn [iter]. rewrite bind_run. unfold copy_pixel at 1. rewrite bind_run.
  change (to_int32 (src_index 64 (0, 6).1 (0, 6).2)) with 31920.
  unfold load. cbn [heap log_load].
  rewrite lookup_insert_ne, Hcm by done.
  rewrite sample_at_ge by lia.
  eexists. split; [reflexivity|]. split; [reflexivity|].
  cbn [heap log_load]. rewrite lookup_insert_eq. by eexists.
Qed.

Lemma range_from_app (i step : Z) (n m : nat) :
  range_from i step (n + m)
  = range_from i step n ++ range_from (i + Z.of_nat n * step) step m.
Proof.
  revert i. induction n as [|n IH]; intros i.
  - simpl. f_equal. lia.
  - cbn [range_from Nat.add app]. rewrite IH. do 3 f_equal. lia.
Qed.

(** X13.  A region of more than 64 rows does not fit the 70 rows of a pixel
    buffer once it is read with the stride of the full width.  Whatever its
    width, when [y2 - y1 > 64] the ninth band reads index
    [31920 = 70 * 456], the first one after the block: the flush stops there
    with an access out of bounds, after eight bitmap writes, without freeing
    the scratch tile and without reporting the flush ready. *)
Theorem flush_reads_past_pixel_buffer (fuel : nat) (a : lv_area_t) (px : Z)
    (C0 : list Z) (s : state) :
  heap s !! px = Some C0 →
  Z.of_nat (length C0) = LVGL_WIDTH * DRAW_BUF_LINES →
  swap_count a ≤ Z.of_nat (length C0) →
  alloc_addr s (nalloc s) ≠ 0 → heap s !! alloc_addr s (nalloc s) = None →
  area_bounded a → 64 < y2 a - y1 a →
  (456 < fuel)%nat → (bands a < fuel)%nat →
  ∃ s',
    flush_cb fuel a px s = Err (OutOfBounds px 31920) s' ∧
    trace s'
    = trace s
      ++ [EvLogI (LogFlushing a); EvSwap px (swap_count a);
          EvAlloc 64 7296 (alloc_addr s (nalloc s))]
      ++ (band_draw (y1 a) (alloc_addr s (nalloc s))
            (rgb565_swap C0 (Z.to_nat (swap_count a)))
          <$> [0; 8; 16; 24; 32; 40; 48; 56]) ∧
    is_Some (heap s' !! alloc_addr s (nalloc s)).
Proof.
  unfold LVGL_WIDTH, DRAW_BUF_LINES.
  intros Hpx Hlen Hcnt Hnz Hfresh Hab Htall Hf1 Hf2.
  assert (px ≠ alloc_addr s (nalloc s)) as Hne by (intros ->; congruence).
  set (lb := alloc_addr s (nalloc s)) in *.
  set (C := rgb565_swap C0 (Z.to_nat (swap_count a))).
  assert (Z.of_nat (length C) = 31920) as HC
    by (unfold C; rewrite length_rgb565_swap; lia).
  unfold flush_cb. fold (swap_count a).
  rewrite bind_run. unfold esp_logi at 1. rewrite bind_run.
  rewrite (lv_draw_sw_rgb565_swap_run px (swap_count a) C0);
    [| done | pose proof (swap_count_range a); lia].
  fold C. rewrite bind_run.
  rewrite heap_caps_aligned_alloc_run;
    cbn [heap nalloc alloc_addr alloc_fill trace loads set_heap emit count_alloc];
    fold lb; [| done | by rewrite lookup_insert_ne].
  rewrite bind_run, band_loop_iter by done.
  assert (∃ k : nat, bands a = (8 + S k)%nat) as [k Hk].
  { destruct (bands_spec a) as [Hb _].
    exists (bands a - 9)%nat. lia. }
  unfold band_starts. rewrite Hk, range_from_app.
  change (range_from 0 rows 8) with [0; 8; 16; 24; 32; 40; 48; 56].
  change (0 + Z.of_nat 8 * rows) with 64.
  cbn [range_from]. rewrite iter_app, bind_run.
  set (L0 := alloc_fill s (nalloc s)
               <$> seq 0 (Z.to_nat (LVGL_WIDTH * rows * sizeof_lv_color16_t / 2))).
  rewrite (iter_bands_run fuel a px lb C [0; 8; 16; 24; 32; 40; 48; 56]
             Hf1 Hne ltac:(by destruct Hab)) with (L := L0);
    cbn [heap nalloc alloc_addr alloc_fill trace loads set_heap emit count_alloc].
  - cbn [iter]. rewrite bind_run. unfold flush_band at 1. rewrite bind_run.
    edestruct (copy_band_reads_row_70 fuel px lb C) as (s' & -> & Ht & Hlive);
      [exact Hf1 | exact Hne | | exact HC | | | ].
    + cbn [heap]. rewrite !lookup_insert_ne by done. apply lookup_insert_eq.
    + cbn [heap]. apply lookup_insert_eq.
    + apply length_rotated_band.
    + exists s'. split; [reflexivity|]. split.
      * rewrite Ht. cbn [trace]. by rewrite <- !app_assoc.
      * exact Hlive.
  - repeat (constructor; [lia|]). constructor.
  - rewrite lookup_insert_ne by done. by rewrite lookup_insert_eq.
  - by rewrite lookup_insert_eq.
  - unfold L0. by rewrite length_fmap, length_seq.
Qed.

Lemma flush_reads_past_pixel_buffer_witness :
  ∃ s',
    flush_cb 457 (mk_area 0 0 7 279) 100 (one_block 31920 200)
    = Err (OutOfBounds 100 31920) s' ∧
    trace s'
    = trace (one_block 31920 200)
      ++ [EvLogI (LogFlushing (mk_area 0 0 7 279)); EvSwap 100 2240;
          EvAlloc 64 7296 200]
      ++ (band_draw 0 200 (rgb565_swap (ramp 31920) (Z.to_nat 2240))
          <$> [0; 8; 16; 24; 32; 40; 48; 56]) ∧
    is_Some (heap s' !! 200).
Proof.
  apply (flush_reads_past_pixel_buffer 457 (mk_area 0 0 7 279) 100
           (ramp 31920) (one_block 31920 200)).
  - apply lookup_singleton_eq.
  - rewrite length_ramp, Z2Nat.id by lia. reflexivity.
  - rewrite length_ramp. vm_compute. discriminate.
  - cbn [one_block alloc_addr nalloc]. lia.
  - cbn [one_block alloc_addr nalloc heap]. apply lookup_singleton_ne. lia.
  - unfold area_bounded. cbn [y1 y2]. lia.
  - cbn [y1 y2]. lia.
  - lia.
  - vm_compute. lia.
Defined.

(** ** Start-up and the main loop *)

(** X14.  When the allocator fails on either pixel buffer, [app_main] logs
    one error that names both pointers and aborts: no buffer is registered
    with the rendering runtime and no cycle of the main loop runs. *)
Theorem app_main_aborts_on_alloc_failure (addr : nat → Z)
    (fill : nat → nat → Z) (fuel : nat) (script : list cycle) :
  addr 0%nat = 0 ∨ addr 1%nat = 0 →
  ∃ s', app_main fuel script (power_on addr fill) = Err Aborted s' ∧
        trace s' = [EvLogI (LogBufferSize 63840);
                    EvAlloc 64 63840 (addr 0%nat);
                    EvAlloc 64 63840 (addr 1%nat);
                    EvLogE (LogAllocFailed (addr 0%nat) (addr 1%nat));
                    EvAbort] ∧
        filter is_set_buffers (trace s') = [].
Proof.
  intros Hfail.
  destruct (app_main_buffers_alloc_failure addr fill Hfail) as (s' & Hrun & Ht).
  exists s'. unfold app_main. rewrite bind_run, Hrun.
  split; [done|]. split; [done|]. by rewrite Ht.
Qed.

Lemma app_main_aborts_on_alloc_failure_witness :
  ∃ s', app_main 457 [mk_cycle (mk_area 0 0 455 7) true []]
          (power_on (λ k, Z.of_nat k * 1000) (λ _ _, 0)) = Err Aborted s' ∧
        trace s' = [EvLogI (LogBufferSize 63840); EvAlloc 64 63840 0;
                    EvAlloc 64 63840 1000;
                    EvLogE (LogAllocFailed 0 1000); EvAbort] ∧
        filter is_set_buffers (trace s') = [].
Proof.
  apply (app_main_aborts_on_alloc_failure (λ k, Z.of_nat k * 1000) (λ _ _, 0)).
  left. reflexivity.
Defined.

(** X15.  When both allocations succeed, start-up registers the two pointers
    once, with the size it asked for; they are distinct live objects of
    [LVGL_WIDTH * DRAW_BUF_LINES] samples each, 70 rows of the logical width,
    and nothing else has been allocated. *)
Theorem app_main_buffers_registered (addr : nat → Z) (fill : nat → nat → Z) :
  addr 0%nat ≠ 0 → addr 1%nat ≠ 0 → addr 0%nat ≠ addr 1%nat →
  ∃ s' l1 l2,
    app_main_buffers (power_on addr fill) = Ok (addr 0%nat, addr 1%nat) s' ∧
    heap s' !! addr 0%nat = Some l1 ∧ heap s' !! addr 1%nat = Some l2 ∧
    Z.of_nat (length l1) = LVGL_WIDTH * DRAW_BUF_LINES ∧
    Z.of_nat (length l2) = LVGL_WIDTH * DRAW_BUF_LINES ∧
    (∀ p, is_Some (heap s' !! p) → p = addr 0%nat ∨ p = addr 1%nat) ∧
    filter is_set_buffers (trace s')
    = [EvSetBuffers (addr 0%nat) (addr 1%nat)
         (LVGL_WIDTH * DRAW_BUF_LINES * sizeof_lv_color16_t)] ∧
    nalloc s' = 2%nat.
Proof.
  intros Hnz0 Hnz1 Hne.
  eexists _, _, _. split; [by apply app_main_buffers_run|].
  cbn [heap trace nalloc].
  split_and!.
  - rewrite lookup_insert_ne by done. apply lookup_insert_eq.
  - apply lookup_insert_eq.
  - rewrite length_fmap, length_seq, Z2Nat.id by done. reflexivity.
  - rewrite length_fmap, length_seq, Z2Nat.id by done. reflexivity.
  - intros p [l Hp].
    apply lookup_insert_Some in Hp as [[<- _] | [_ Hp]]; [by right|].
    apply lookup_insert_Some in Hp as [[<- _] | [_ Hp]]; [by left|].
    by rewrite lookup_empty in Hp.
  - reflexivity.
  - reflexivity.
Qed.

Lemma app_main_buffers_registered_witness :
  ∃ s' l1 l2,
    app_main_buffers (power_on (λ k, Z.of_nat (S k) * 1000) (λ _ _, 0))
    = Ok (1000, 2000) s' ∧
    heap s' !! 1000 = Some l1 ∧ heap s' !! 2000 = Some l2 ∧
    Z.of_nat (length l1) = LVGL_WIDTH * DRAW_BUF_LINES ∧
    Z.of_nat (length l2) = LVGL_WIDTH * DRAW_BUF_LINES ∧
    (∀ p, is_Some (heap s' !! p) → p = 1000 ∨ p = 2000) ∧
    filter is_set_buffers (trace s')
    = [EvSetBuffers 1000 2000
         (LVGL_WIDTH * DRAW_BUF_LINES * sizeof_lv_color16_t)] ∧
    nalloc s' = 2%nat.
Proof.
  apply (app_main_buffers_registered (λ k, Z.of_nat (S k) * 1000) (λ _ _, 0)).
  - simpl. lia.
  - simpl. lia.
  - simpl. lia.
Defined.

Lemma filter_flush_ready_draws (lb : Z) (ds : list event) :
  Forall (λ e, draw_pointer e = Some lb) ds → filter is_flush_ready ds = [].
Proof.
  induction 1 as [|e ds He Hds IH]; [done|].
  rewrite filter_cons_False; [done|].
  destruct e; simpl in *; first [discriminate | tauto].
Qed.

Lemma flush_cb_cycle_effect (fuel : nat) (a : lv_area_t) (px : Z)
    (s s' : state) :
  flush_cb fuel a px s = Ok () s' →
  same_live (heap s') (heap s) ∧
  length (filter is_flush_ready (trace s'))
  = S (length (filter is_flush_ready (trace s))).
Proof.
  intros Hrun.
  pose proof (flush_cb_footprint fuel a px s) as Hfp. simpl in Hfp.
  rewrite Hrun in Hfp. destruct Hfp as (ds & Ht & Hds & _ & Hlive).
  split; [done|]. rewrite Ht.
  change (?e1 :: ?e2 :: ?e3 :: ds ++ ?l) with ([e1; e2; e3] ++ ds ++ l).
  rewrite !filter_app, (filter_flush_ready_draws _ _ Hds), !length_app.
  simpl. lia.
Qed.

(** X16.  Across the main loop nothing leaks and nothing is reported twice:
    when any number of render/flush cycles have returned, the live objects
    are those that were live before, and the flush has been reported ready
    exactly once per cycle. *)
Theorem main_loop_no_leak (fuel : nat) (bufs : Z * Z) (script : list cycle)
    (s s' : state) :
  main_loop fuel bufs script s = Ok () s' →
  same_live (heap s') (heap s) ∧
  length (filter is_flush_ready (trace s'))
  = (length (filter is_flush_ready (trace s)) + length script)%nat.
Proof.
  revert s. induction script as [|c script IH]; intros s Hrun; simpl in Hrun.
  - injection Hrun as <-. split; [apply same_live_refl | simpl; lia].
  - rewrite bind_run in Hrun.
    destruct (render_flush_cycle fuel bufs c s) as [[] s1|] eqn:Hc; [|done].
    destruct (IH s1 Hrun) as [Hl1 Hn1].
    unfold render_flush_cycle in Hc. rewrite bind_run in Hc.
    pose proof (lv_render_final (held_buffer bufs c) (c_pixels c) s) as [Ht Hl].
    destruct (lv_render _ _ s) as [[] s0|]; [|done]. simpl in Ht, Hl.
    destruct (flush_cb_cycle_effect _ _ _ _ _ Hc) as [Hl0 Hn0].
    split.
    + eapply same_live_trans; [exact Hl1|].
      eapply same_live_trans; [exact Hl0 | exact Hl].
    + rewrite Hn1, Hn0, Ht. simpl. lia.
Qed.

(** One cycle on a block of eight rows returns. *)
Lemma one_cycle_returns :
  ∃ s', main_loop 457 (100, 100) [mk_cycle (mk_area 0 0 455 7) true []]
          (one_block 3648 200) = Ok () s'.
Proof.
  cbn [main_loop]. rewrite bind_run. unfold render_flush_cycle.
  rewrite bind_run. unfold held_buffer.
  cbn [c_first c_pixels c_area fst snd].
  unfold lv_render at 1, one_block. cbn [heap].
  rewrite lookup_singleton_eq. cbn [length Nat.leb drop app set_heap].
  erewrite flush_cb_run.
  - eexists. reflexivity.
  - unfold flush_pre. cbn [heap nalloc alloc_addr set_heap].
    split_and!.
    + apply lookup_insert_eq.
    + rewrite drop_0, length_ramp. vm_compute. discriminate.
    + lia.
    + rewrite lookup_insert_ne by lia. apply lookup_singleton_ne. lia.
    + unfold area_bounded. cbn [y1 y2]. lia.
    + rewrite drop_0, length_ramp. vm_compute. discriminate.
  - lia.
  - vm_compute. lia.
Qed.

Lemma main_loop_no_leak_witness :
  ∃ s', main_loop 457 (100, 100) [mk_cycle (mk_area 0 0 455 7) true []]
          (one_block 3648 200) = Ok () s' ∧
        same_live (heap s') (heap (one_block 3648 200)) ∧
        length (filter is_flush_ready (trace s'))
        = (length (filter is_flush_ready (trace (one_block 3648 200))) + 1)%nat.
Proof.
  destruct one_cycle_returns as [s' Hrun].
  exists s'. split; [exact Hrun|].
  apply (main_loop_no_leak 457 (100, 100)
           [mk_cycle (mk_area 0 0 455 7) true []] (one_block 3648 200) s').
  exact Hrun.
Defined.

(** ** What the pixel buffer holds where nothing was rendered *)

(** A sample of a block beyond the normalized prefix is as it was. *)
Lemma rgb565_swap_beyond (buf : list Z) (n : nat) (i : Z) :
  Z.of_nat n ≤ i → (n ≤ length buf)%nat →
  sample_at (rgb565_swap buf n) i = sample_at buf i.
Proof.
  intros Hi Hn. unfold sample_at, rgb565_swap.
  destruct (Z.ltb_spec i 0); [done|].
  rewrite lookup_app_r by (rewrite length_fmap, length_take; lia).
  rewrite length_fmap, length_take, lookup_drop. f_equal. lia.
Qed.

(** X19.  The pixel buffers come from the allocator with indeterminate
    contents, and the bands read whole rows of 456 samples whatever was
    rendered.  From power-on, in the first cycle on a region of the display
    of at most 65 rows: wherever a band reads an index at or after both the
    rendered samples and the normalized ones, the bitmap write of that band
    carries the value that the allocator left there in the first pixel
    buffer. *)
Theorem unrendered_samples_reach_panel (addr : nat → Z)
    (fill : nat → nat → Z) (fuel : nat) (a : lv_area_t) (pixels : list Z) :
  addr 0%nat ≠ 0 → addr 1%nat ≠ 0 → addr 2%nat ≠ 0 →
  addr 0%nat ≠ addr 1%nat → addr 2%nat ≠ addr 0%nat →
  addr 2%nat ≠ addr 1%nat →
  area_in_display LVGL_WIDTH LVGL_HEIGHT a → y2 a - y1 a ≤ 64 →
  Z.of_nat (length pixels) ≤ LVGL_WIDTH * DRAW_BUF_LINES →
  (456 < fuel)%nat →
  ∃ s', app_main fuel [mk_cycle a true pixels] (power_on addr fill)
        = Ok () s' ∧
    ∀ n x y, n ∈ band_starts a → pair_in_band (x, y) →
      Z.of_nat (length pixels) ≤ src_index n x y →
      (x2 a - x1 a + 1) * (y2 a - y1 a + 1) ≤ src_index n x y →
      ∃ D, EvDrawBitmap (LCD_H_RES - y1 a - n - rows) 0
             (LCD_H_RES - y1 a - n) LCD_V_RES (addr 2%nat) D ∈ trace s' ∧
           sample_at D (dst_index x y)
           = Some (fill 0%nat (Z.to_nat (src_index n x y))).
Proof.
  unfold LVGL_WIDTH, LVGL_HEIGHT, DRAW_BUF_LINES.
  intros Hnz0 Hnz1 Hnz2 H01 H20 H21 (A1 & A2 & A3 & A4 & A5 & A6) Hh Hpix
    Hfuel.
  set (l0 := fill 0%nat <$> seq 0 (Z.to_nat (63840 / 2))).
  assert (Z.of_nat (length l0) = 31920) as Hl0.
  { unfold l0. rewrite length_fmap, length_seq.
    change (63840 / 2) with 31920. lia. }
  set (C0 := pixels ++ drop (length pixels) l0).
  assert (Z.of_nat (length C0) = 31920) as HC0.
  { unfold C0. rewrite length_app, length_drop. lia. }
  assert (swap_count a = (x2 a - x1 a + 1) * (y2 a - y1 a + 1)) as Hsc.
  { unfold swap_count, to_uint32. apply Z.mod_small. nia. }
  assert (8 * Z.of_nat (bands a) ≤ 64) as Hb.
  { unfold bands.
    pose proof (Z.div_le_mono (y2 a - y1 a + 7) 71 8 ltac:(lia) ltac:(lia)).
    change (71 / 8) with 8 in *.
    assert (0 ≤ (y2 a - y1 a + 7) / 8) by (apply Z.div_pos; lia).
    lia. }
  unfold app_main. rewrite bind_run, app_main_buffers_run by done.
  fold l0. cbn [main_loop]. rewrite bind_run. unfold render_flush_cycle.
  rewrite bind_run. unfold held_buffer. cbn [c_first c_pixels c_area fst snd].
  unfold lv_render at 1. cbn [heap].
  rewrite lookup_insert_ne, lookup_insert_eq by done.
  destruct (Nat.leb_spec (length pixels) (length l0)); [|lia].
  fold C0.
  erewrite (flush_cb_run fuel a (addr 0%nat) C0).
  2:{ unfold flush_pre. cbn [heap nalloc alloc_addr set_heap].
      split_and!.
      - by rewrite lookup_insert_eq.
      - rewrite Hsc, HC0. nia.
      - done.
      - rewrite !lookup_insert_ne by done. apply lookup_empty.
      - unfold area_bounded. lia.
      - rewrite HC0. unfold cols, LVGL_WIDTH. lia. }
  2: done.
  2: lia.
  eexists. split; [reflexivity|].
  intros n x y Hn Hxy Hpx Hreg.
  cbn [heap nalloc alloc_addr alloc_fill trace loads set_heap].
  eexists. split.
  - apply elem_of_app. right.
    change (?e1 :: ?e2 :: ?e3 :: ?l) with ([e1; e2; e3] ++ l).
    apply elem_of_app. right. apply elem_of_app. left.
    apply list_elem_of_fmap. exists n. split; [reflexivity | exact Hn].
  - rewrite rotated_band_sample by done.
    pose proof (band_starts_bounds a n Hn) as (Hn0 & _ & _ & Hn8).
    destruct Hxy as [Hx Hy]. simpl in Hx, Hy.
    assert (0 ≤ src_index n x y < 31920) as [Hge Hlt]
      by (unfold src_index, cols, LVGL_WIDTH; lia).
    rewrite rgb565_swap_beyond by lia.
    unfold sample_at. destruct (Z.ltb_spec (src_index n x y) 0); [lia|].
    unfold C0.
    rewrite lookup_app_r by lia.
    rewrite lookup_drop.
    replace (length pixels + (Z.to_nat (src_index n x y) - length pixels))%nat
      with (Z.to_nat (src_index n x y)) by lia.
    unfold l0. rewrite list_lookup_fmap, lookup_seq_lt.
    + reflexivity.
    + change (63840 / 2) with 31920. lia.
Qed.

Lemma unrendered_samples_reach_panel_witness :
  ∃ s', app_main 457 [mk_cycle (mk_area 8 16 55 31) true (replicate 768 0)]
          (power_on (λ k, 100 * Z.of_nat (S k)) (λ _ _, 43690))
        = Ok () s' ∧
    ∀ n x y, n ∈ band_starts (mk_area 8 16 55 31) → pair_in_band (x, y) →
      Z.of_nat (length (replicate 768 0)) ≤ src_index n x y →
      (55 - 8 + 1) * (31 - 16 + 1) ≤ src_index n x y →
      ∃ D, EvDrawBitmap (LCD_H_RES - 16 - n - rows) 0
             (LCD_H_RES - 16 - n) LCD_V_RES (100 * Z.of_nat 3) D ∈ trace s' ∧
           sample_at D (dst_index x y) = Some 43690.
Proof.
  apply (unrendered_samples_reach_panel (λ k, 100 * Z.of_nat (S k))
           (λ _ _, 43690) 457 (mk_area 8 16 55 31) (replicate 768 0)).
  - lia.
  - lia.
  - lia.
  - lia.
  - lia.
  - lia.
  - unfold area_in_display, LVGL_WIDTH, LVGL_HEIGHT. cbn [x1 x2 y1 y2]. lia.
  - cbn [y1 y2]. lia.
  - rewrite length_replicate. unfold LVGL_WIDTH, DRAW_BUF_LINES. lia.
  - lia.
Defined.

(** ** The portrait variant of the flush callback *)

(** X17.  The flush callback of the portrait variant, on a region of the 280
    by 456 display that the block holds: it normalizes the
    [(x2 - x1 + 1) * (y2 - y1 + 1)] samples of the region in place, issues
    one bitmap write with the window [x1, x2 + 1) by [y1, y2 + 1), which lies
    on the panel, hands it [px_map] itself with exactly the normalized
    samples, reports the flush ready, and allocates nothing. *)
Theorem flush_cb_portrait_run (a : lv_area_t) (px : Z) (C0 : list Z)
    (s : state) :
  area_in_display LCD_H_RES LCD_V_RES a →
  heap s !! px = Some C0 →
  (x2 a - x1 a + 1) * (y2 a - y1 a + 1) ≤ Z.of_nat (length C0) →
  let count := (x2 a - x1 a + 1) * (y2 a - y1 a + 1) in
  flush_cb_portrait a px s
  = Ok () (mk_state
             (<[px := (swap16 <$> take (Z.to_nat count) C0)
                      ++ drop (Z.to_nat count) C0]> (heap s))
             (nalloc s) (alloc_addr s) (alloc_fill s)
             (trace s
              ++ [EvSwap px count;
                  EvDrawBitmap (x1 a) (y1 a) (x2 a + 1) (y2 a + 1) px
                    (swap16 <$> take (Z.to_nat count) C0);
                  EvFlushReady])
             (loads s)) ∧
  x2 a + 1 ≤ LCD_H_RES ∧ y2 a + 1 ≤ LCD_V_RES.
Proof.
  intros (A1 & A2 & A3 & A4 & A5 & A6) Hpx Hlen count.
  unfold LCD_H_RES, LCD_V_RES in *.
  split; [|lia].
  assert (0 < count ≤ 280 * 456) as Hc by (subst count; nia).
  unfold flush_cb_portrait. fold count.
  rewrite to_uint32_small by lia.
  rewrite !to_int32_id by (unfold is_int32; lia).
  rewrite bind_run.
  rewrite (lv_draw_sw_rgb565_swap_run px count C0) by (done || lia).
  rewrite bind_run. unfold esp_lcd_panel_draw_bitmap.
  cbn [heap set_heap emit]. rewrite lookup_insert_eq.
  replace ((x2 a + 1 - x1 a) * (y2 a + 1 - y1 a)) with count
    by (subst count; lia).
  rewrite length_rgb565_swap.
  destruct (Z.leb_spec count (Z.of_nat (length C0))); [|lia].
  unfold lv_disp_flush_ready, rgb565_swap.
  cbn [heap nalloc alloc_addr alloc_fill trace loads emit set_heap].
  rewrite take_app_length'
    by (rewrite length_fmap, length_take; lia).
  unfold emit, set_heap.
  cbn [heap nalloc alloc_addr alloc_fill trace loads].
  by rewrite <- !app_assoc.
Qed.

Lemma flush_cb_portrait_run_witness :
  flush_cb_portrait (mk_area 8 16 15 23) 100 (one_block 64 200)
  = Ok () (mk_state
             (<[100 := (swap16 <$> take (Z.to_nat 64) (ramp 64))
                       ++ drop (Z.to_nat 64) (ramp 64)]>
                (heap (one_block 64 200)))
             0 (λ _, 200) (λ _ _, 0)
             ([] ++ [EvSwap 100 64;
                     EvDrawBitmap 8 16 16 24 100
                       (swap16 <$> take (Z.to_nat 64) (ramp 64));
                     EvFlushReady])
             []) ∧
  15 + 1 ≤ LCD_H_RES ∧ 23 + 1 ≤ LCD_V_RES.
Proof.
  apply (flush_cb_portrait_run (mk_area 8 16 15 23) 100 (ramp 64)
           (one_block 64 200)).
  - unfold area_in_display, LCD_H_RES, LCD_V_RES. simpl. lia.
  - apply lookup_singleton_eq.
  - rewrite length_ramp. simpl. lia.
Defined.
